(** * bok_choy.browser: environment-driven Selenium configuration

    A shallow embedding of [bok_choy/browser.py].  The process environment
    [os.environ] is an explicit finite map from names to strings, Python
    dictionaries built by the code are insertion-ordered association lists
    (their key order shows in error messages and in the capability
    document), and raised exceptions are values of an error monad. *)

From stdpp Require Import gmap strings list fin_maps.
From Stdlib Require Import ZArith.

(** ** Python dictionaries, insertion ordered *)

Module Dict.

Definition t (V : Type) : Type := list (string * V).

(** [d.get(k)] *)
Fixpoint get {V} (d : t V) (k : string) : option V :=
  match d with
  | [] => None
  | (k', v) :: d' => if String.eqb k' k then Some v else get d' k
  end.

(** [k in d] *)
Definition has {V} (d : t V) (k : string) : bool :=
  match get d k with Some _ => true | None => false end.

(** [d[k] = v]: an existing key keeps its position, a new key goes last. *)
Fixpoint set {V} (d : t V) (k : string) (v : V) : t V :=
  match d with
  | [] => [(k, v)]
  | (k', v') :: d' =>
      if String.eqb k' k then (k', v) :: d' else (k', v') :: set d' k v
  end.

(** [d.update(e)] *)
Definition update {V} (d e : t V) : t V :=
  fold_left (fun acc kv => set acc (fst kv) (snd kv)) e d.

(** [d.keys()] *)
Definition keys {V} (d : t V) : list string := map fst d.

(** [{k: f(k) for k in ks}] *)
Definition comprehension {V} (f : string -> V) (ks : list string) : t V :=
  fold_left (fun acc k => set acc k (f k)) ks [].

End Dict.

(** ** Exceptions *)

Inductive exn : Type :=
| BrowserConfigError (msg : string)
| KeyError (key : string)
| AttributeError (what : string).

Inductive result (A : Type) : Type :=
| Ok (a : A)
| Raise (e : exn).
Arguments Ok {A} a.
Arguments Raise {A} e.

Definition bind {A B} (r : result A) (k : A -> result B) : result B :=
  match r with
  | Ok a => k a
  | Raise e => Raise e
  end.

Notation "'try' x := r 'in' k" := (bind r (fun x => k))
  (at level 10, x name, r at level 100, k at level 200).

(** [d[k]], raising [KeyError] *)
Definition getitem {V} (d : Dict.t V) (k : string) : result V :=
  match Dict.get d k with
  | Some v => Ok v
  | None => Raise (KeyError k)
  end.

(** ** Values stored in keyword arguments and capabilities *)

#[warnings="-register-all"]
Inductive pyval : Type :=
| PNone
| PBool (b : bool)
| PInt (z : Z)
| PStr (s : string)
| PList (l : list string)
| PDict (d : list (string * pyval)).

(** A value read with [os.environ.get(key)]: a string, or [None]. *)
Definition py (o : option string) : pyval :=
  match o with
  | Some s => PStr s
  | None => PNone
  end.

(** [str.format] of such a value *)
Definition fmt (o : option string) : string :=
  match o with
  | Some s => s
  | None => "None"
  end.

(** [v.update(e)]: only dictionaries have the method. *)
Definition py_update (v : pyval) (e : Dict.t pyval) : result pyval :=
  match v with
  | PDict d => Ok (PDict (Dict.update d e))
  | _ => Raise (AttributeError "update")
  end.

(** ** Module constants (lines 13-38) *)

Definition REMOTE_ENV_VARS : list string :=
  ["SELENIUM_BROWSER"; "SELENIUM_HOST"; "SELENIUM_PORT"].

Definition SAUCE_ENV_VARS : list string :=
  REMOTE_ENV_VARS ++
  ["SELENIUM_VERSION"; "SELENIUM_PLATFORM"; "SAUCE_USER_NAME"; "SAUCE_API_KEY"].

Definition OPTIONAL_ENV_VARS : list string := ["JOB_NAME"; "BUILD_NUMBER"].

(** The session constructors of the Selenium client. *)
Inductive webdriver : Type := Firefox | Chrome | Ie | Safari | Remote.

Definition BROWSERS : Dict.t webdriver :=
  [("firefox", Firefox); ("chrome", Chrome);
   ("internet explorer", Ie); ("safari", Safari)].

(** The proxy argument: an object with a [host] attribute.  [browser]
    tests it with [if proxy:]; a call without a proxy passes [None]. *)
Record Proxy : Type := { host : string }.

(** The call [browser_class( *browser_args, **browser_kwargs)] handed to the
    Selenium client; what the client does with it is outside this module. *)
Record session : Type := Instantiate {
  browser_class : webdriver;
  browser_args : list pyval;
  browser_kwargs : Dict.t pyval
}.

(** ** The functions of the module

    Each function reads [os.environ]; here it is the section variable.
    The calls to [LOGGER.info] are left out, except for the dictionary
    lookups that compute their arguments, which can raise. *)

Section Resolution.

(** [os.environ] *)
Variable environ : gmap string string.

(** Lines 287-297: all of [required_vars] are in the environment. *)
Definition _use_remote_browser (required_vars : list string) : bool :=
  forallb (fun key => bool_decide (is_Some (environ !! key))) required_vars.

(** Lines 189-206. *)
Definition _local_browser_class (browser_name : string)
  : result (webdriver * list pyval * Dict.t pyval) :=
  match Dict.get BROWSERS browser_name with
  | None =>
      Raise (BrowserConfigError
               ("Invalid browser name " +:+ browser_name +:+
                ".  Options are: " +:+ String.concat ", " (Dict.keys BROWSERS)))
  | Some cls => Ok (cls, [], [])
  end.

(** Lines 300-326.  [os.environ.get(key)] is [None] for an unset variable,
    so [envs] maps every name of [env_vars] to a string or to [None]. *)
Definition _required_envs (env_vars : list string)
  : result (Dict.t (option string)) :=
  let envs := Dict.comprehension (fun key => environ !! key) env_vars in
  let missing :=
    map fst (filter (fun kv => snd kv = None) envs) in
  if 0 <? length missing then
    Raise (BrowserConfigError
             ("These environment variables must be set: " +:+
              String.concat ", " missing))
  else
    try b := getitem envs "SELENIUM_BROWSER" in
    if negb (match b with Some s => Dict.has BROWSERS s | None => false end)
    then Raise (BrowserConfigError ("Unsuppported browser: " +:+ fmt b))
    else Ok envs.

(** Lines 329-349. *)
Definition _optional_envs : result (Dict.t (option string)) :=
  let envs :=
    Dict.comprehension (fun key => environ !! key)
      (filter (fun key => is_Some (environ !! key)) OPTIONAL_ENV_VARS) in
  if Dict.has envs "JOB_NAME" && negb (Dict.has envs "BUILD_NUMBER") then
    Raise (BrowserConfigError "Missing BUILD_NUMBER environment var")
  else if Dict.has envs "BUILD_NUMBER" && negb (Dict.has envs "JOB_NAME") then
    Raise (BrowserConfigError "Missing JOB_NAME environment var")
  else Ok envs.

(** Lines 352-392.  The SauceLabs test reads the environment again, not
    [envs]. *)
Definition _capabilities_dict (envs : Dict.t (option string))
  (tags : list string) : result (Dict.t pyval) :=
  try b := getitem envs "SELENIUM_BROWSER" in
  let capabilities : Dict.t pyval :=
    [("browserName", py b);
     ("video-upload-on-pass", PBool false);
     ("sauce-advisor", PBool false);
     ("capture-html", PBool true);
     ("record-screenshots", PBool true);
     ("max-duration", PInt 600);
     ("public", PStr "public restricted");
     ("tags", PList tags)] in
  try capabilities :=
    (if _use_remote_browser SAUCE_ENV_VARS then
       try platform := getitem envs "SELENIUM_PLATFORM" in
       try version := getitem envs "SELENIUM_VERSION" in
       try username := getitem envs "SAUCE_USER_NAME" in
       try accessKey := getitem envs "SAUCE_API_KEY" in
       Ok (Dict.update capabilities
             [("platform", py platform); ("version", py version);
              ("username", py username); ("accessKey", py accessKey)])
     else Ok capabilities) in
  if Dict.has envs "JOB_NAME" then
    try build := getitem envs "BUILD_NUMBER" in
    try name := getitem envs "JOB_NAME" in
    Ok (Dict.update capabilities [("build", py build); ("name", py name)])
  else Ok capabilities.

(** Lines 209-245.  A missing [tags] argument is the empty list. *)
Definition _remote_browser_class (env_vars : list string)
  (tags : option (list string))
  : result (webdriver * list pyval * Dict.t pyval) :=
  let tags := match tags with None => [] | Some l => l end in
  try envs := _required_envs env_vars in
  try opt := _optional_envs in
  let envs := Dict.update envs opt in
  try caps := _capabilities_dict envs tags in
  (* the values formatted into the log line *)
  try _ := (if Dict.has caps "accessKey" then
          try _ := getitem caps "platform" in
          try _ := getitem caps "browserName" in
          getitem caps "version"
        else getitem caps "browserName") in
  try h := getitem envs "SELENIUM_HOST" in
  try p := getitem envs "SELENIUM_PORT" in
  let url := "http://" +:+ fmt h +:+ ":" +:+ fmt p +:+ "/wd/hub" in
  Ok (Remote, [],
      [("command_executor", PStr url); ("desired_capabilities", PDict caps)]).

End Resolution.

(** Lines 257-262: the table local to [_proxy_kwargs]. *)
Definition proxy_type : Dict.t string :=
  [("firefox", "MANUAL"); ("internet explorer", "MANUAL");
   ("chrome", "AUTODETECT"); ("safari", "AUTODETECT")].

(** Lines 264-271: the value stored under [proxy]. *)
Definition proxy_block (proxy : Proxy) (type : string) : Dict.t pyval :=
  [("httpProxy", PStr (host proxy));
   ("ftpProxy", PStr (host proxy));
   ("sslProxy", PStr (host proxy));
   ("noProxy", PNone);
   ("proxyType", PStr type);
   ("class", PStr "org.openqa.selenium.Proxy")].

(** Lines 248-284.  The function updates [browser_kwargs] and the mapping
    stored in it in place and returns [browser_kwargs]; the returned value
    here is that updated object.  [browser] always passes the argument, so
    the shared default [{}] of the signature is not modelled. *)
Definition _proxy_kwargs (browser_name : string) (proxy : Proxy)
  (browser_kwargs : Dict.t pyval) : result (Dict.t pyval) :=
  try type := getitem proxy_type browser_name in
  let proxy_dict : Dict.t pyval := [("proxy", PDict (proxy_block proxy type))] in
  if String.eqb browser_name "firefox"
     && negb (Dict.has browser_kwargs "desired_capabilities")
  then
    let browser_kwargs := Dict.set browser_kwargs "capabilities" (PDict []) in
    try c := getitem browser_kwargs "capabilities" in
    try c := py_update c proxy_dict in
    Ok (Dict.set browser_kwargs "capabilities" c)
  else
    let browser_kwargs :=
      if negb (Dict.has browser_kwargs "desired_capabilities")
      then Dict.set browser_kwargs "desired_capabilities" (PDict [])
      else browser_kwargs in
    try c := getitem browser_kwargs "desired_capabilities" in
    try c := py_update c proxy_dict in
    Ok (Dict.set browser_kwargs "desired_capabilities" c).

(** Lines 114-186.  The result is the constructor call of the last line. *)
Definition browser (environ : gmap string string)
  (tags : option (list string)) (proxy : option Proxy) : result session :=
  let browser_name :=
    match environ !! "SELENIUM_BROWSER" with Some s => s | None => "firefox" end in
  try r := (if _use_remote_browser environ SAUCE_ENV_VARS then
          _remote_browser_class environ SAUCE_ENV_VARS tags
        else if _use_remote_browser environ REMOTE_ENV_VARS then
          _remote_browser_class environ REMOTE_ENV_VARS tags
        else _local_browser_class browser_name) in
  let '(cls, args, kwargs) := r in
  try kwargs := (match proxy with
             | Some p => _proxy_kwargs browser_name p kwargs
             | None => Ok kwargs
             end) in
  Ok (Instantiate cls args kwargs).

(** The mode a call resolves to: which of the three branches of [browser]
    is taken. *)
Inductive Mode : Type := Local | RemoteMode | ManagedCloud.

#[global] Instance Mode_eq_dec : EqDecision Mode.
Proof. solve_decision. Defined.

Definition resolve_mode (environ : gmap string string) : Mode :=
  if _use_remote_browser environ SAUCE_ENV_VARS then ManagedCloud
  else if _use_remote_browser environ REMOTE_ENV_VARS then RemoteMode
  else Local.

(** ** Closed forms used in the statements *)

(** [envs[k]] as a capability value, for a key known to be there. *)
Definition item (envs : Dict.t (option string)) (k : string) : pyval :=
  match Dict.get envs k with
  | Some o => py o
  | None => PNone
  end.

Definition base_caps (b : pyval) (tags : list string) : Dict.t pyval :=
  [("browserName", b);
   ("video-upload-on-pass", PBool false);
   ("sauce-advisor", PBool false);
   ("capture-html", PBool true);
   ("record-screenshots", PBool true);
   ("max-duration", PInt 600);
   ("public", PStr "public restricted");
   ("tags", PList tags)].

Definition sauce_caps (envs : Dict.t (option string)) : Dict.t pyval :=
  [("platform", item envs "SELENIUM_PLATFORM");
   ("version", item envs "SELENIUM_VERSION");
   ("username", item envs "SAUCE_USER_NAME");
   ("accessKey", item envs "SAUCE_API_KEY")].

Definition job_caps (envs : Dict.t (option string)) : Dict.t pyval :=
  [("build", item envs "BUILD_NUMBER"); ("name", item envs "JOB_NAME")].

Definition caps_layout (env : gmap string string)
  (envs : Dict.t (option string)) (tags : list string) : Dict.t pyval :=
  base_caps (item envs "SELENIUM_BROWSER") tags
  ++ (if _use_remote_browser env SAUCE_ENV_VARS then sauce_caps envs else [])
  ++ (if Dict.has envs "JOB_NAME" then job_caps envs else []).

(** The keyword arguments of a remote session. *)
Definition remote_kwargs (h p : string) (caps : Dict.t pyval) : Dict.t pyval :=
  [("command_executor", PStr ("http://" +:+ h +:+ ":" +:+ p +:+ "/wd/hub"));
   ("desired_capabilities", PDict caps)].

Definition tags_or_empty (tags : option (list string)) : list string :=
  match tags with None => [] | Some l => l end.

(** What the Jenkins variables add to the capabilities; an unpaired
    variable is an error. *)
Definition jenkins (env : gmap string string) : result (Dict.t pyval) :=
  match env !! "JOB_NAME", env !! "BUILD_NUMBER" with
  | Some j, Some b => Ok [("build", PStr b); ("name", PStr j)]
  | Some _, None =>
      Raise (BrowserConfigError "Missing BUILD_NUMBER environment var")
  | None, Some _ =>
      Raise (BrowserConfigError "Missing JOB_NAME environment var")
  | None, None => Ok []
  end.

(** The tail of [browser]: the proxy step and the constructor call applied
    to what the chosen branch returned. *)
Definition instantiate (environ : gmap string string) (proxy : option Proxy)
  (r : result (webdriver * list pyval * Dict.t pyval)) : result session :=
  let browser_name :=
    match environ !! "SELENIUM_BROWSER" with Some s => s | None => "firefox" end in
  try r := r in
  let '(cls, args, kwargs) := r in
  try kwargs := (match proxy with
                 | Some p => _proxy_kwargs browser_name p kwargs
                 | None => Ok kwargs
                 end) in
  Ok (Instantiate cls args kwargs).

(** The single entry that proxy augmentation writes. *)
Definition proxy_entry (proxy : Proxy) (type : string) : Dict.t pyval :=
  [("proxy", PDict (proxy_block proxy type))].

(** [needle in hay] on strings *)
Fixpoint contains (needle hay : string) : bool :=
  if String.prefix needle hay then true
  else match hay with
       | EmptyString => false
       | String _ hay' => contains needle hay'
       end.

(** A message enumerates the supported identifiers when it has each of them. *)
Definition enumerates_browsers (msg : string) : bool :=
  forallb (fun name => contains name msg) (Dict.keys BROWSERS).

(** The SauceLabs capabilities, present when all of [SAUCE_ENV_VARS] are
    set. *)
Definition sauce_block (env : gmap string string) : Dict.t pyval :=
  if _use_remote_browser env SAUCE_ENV_VARS then
    [("platform", py (env !! "SELENIUM_PLATFORM"));
     ("version", py (env !! "SELENIUM_VERSION"));
     ("username", py (env !! "SAUCE_USER_NAME"));
     ("accessKey", py (env !! "SAUCE_API_KEY"))]
  else [].

(** The keys of the three blocks of a capability document. *)
Definition base_keys : list string :=
  ["browserName"; "video-upload-on-pass"; "sauce-advisor"; "capture-html";
   "record-screenshots"; "max-duration"; "public"; "tags"].

Definition sauce_keys : list string :=
  ["platform"; "version"; "username"; "accessKey"].

Definition job_keys : list string := ["build"; "name"].

(** ** Sample environments *)

Definition remote_chrome_env : gmap string string :=
  list_to_map [("SELENIUM_BROWSER", "chrome"); ("SELENIUM_HOST", "localhost");
               ("SELENIUM_PORT", "4444")].

Definition job_only_env : gmap string string :=
  list_to_map [("JOB_NAME", "nightly")].

Definition remote_job_only_env : gmap string string :=
  <["JOB_NAME" := "nightly"]> remote_chrome_env.

Definition remote_opera_env : gmap string string :=
  <["SELENIUM_BROWSER" := "opera"]> remote_chrome_env.

Definition remote_empty_host_env : gmap string string :=
  <["SELENIUM_HOST" := ""]> remote_chrome_env.

Definition host_only_env : gmap string string :=
  list_to_map [("SELENIUM_HOST", "localhost")].

Definition sauce_firefox_env : gmap string string :=
  list_to_map [("SELENIUM_BROWSER", "firefox"); ("SELENIUM_HOST", "localhost");
               ("SELENIUM_PORT", "4445"); ("SELENIUM_VERSION", "38");
               ("SELENIUM_PLATFORM", "Linux"); ("SAUCE_USER_NAME", "ci-user");
               ("SAUCE_API_KEY", "0000-1111")].

(** ** Further definitions used in the statements *)

(** Line 167: the browser name [browser] works with. *)
Definition selected_browser (env : gmap string string) : string :=
  match env !! "SELENIUM_BROWSER" with Some s => s | None => "firefox" end.

(** The capabilities after the proxy step of [browser]. *)
Definition with_proxy (proxy : option Proxy) (type : string)
  (caps : Dict.t pyval) : Dict.t pyval :=
  match proxy with
  | None => caps
  | Some px => Dict.set caps "proxy" (PDict (proxy_block px type))
  end.

(** How remote a mode is: local, remote, SauceLabs. *)
Definition mode_rank (m : Mode) : nat :=
  match m with Local => 0 | RemoteMode => 1 | ManagedCloud => 2 end.

(** The variables [browser] reads. *)
Definition READ_ENV_VARS : list string := SAUCE_ENV_VARS ++ OPTIONAL_ENV_VARS.

Definition remote_chrome_home_env : gmap string string :=
  <["HOME" := "/home/jenkins"]> remote_chrome_env.

Definition sauce_job_env : gmap string string :=
  <["JOB_NAME" := "nightly"]> (<["BUILD_NUMBER" := "7"]> sauce_firefox_env).

(** The message of the error a call of [browser] ends in, as a function of
    the environment; [None] when the call returns. *)
Definition config_error (env : gmap string string) : option string :=
  let name := selected_browser env in
  match resolve_mode env with
  | Local =>
      if Dict.has BROWSERS name then None
      else Some ("Invalid browser name " +:+ name +:+ ".  Options are: "
                 +:+ String.concat ", " (Dict.keys BROWSERS))
  | _ =>
      if Dict.has BROWSERS name then
        match jenkins env with
        | Raise (BrowserConfigError msg) => Some msg
        | _ => None
        end
      else Some ("Unsuppported browser: " +:+ name)
  end.

(** * Properties *)

(** ** Dictionary lemmas *)

Section DictFacts.
Context {V : Type}.
Implicit Types (d e : Dict.t V) (k : string) (v : V).

Lemma get_set_eq d k v : Dict.get (Dict.set d k v) k = Some v.
Proof.
  induction d as [|[k' v'] d IH]; simpl.
  - by rewrite String.eqb_refl.
  - destruct (String.eqb k' k) eqn:E; simpl; rewrite E; auto.
Qed.

Lemma get_set_ne d k k' v :
  k <> k' -> Dict.get (Dict.set d k v) k' = Dict.get d k'.
Proof.
  intros Hne. induction d as [|[k0 v0] d IH]; simpl.
  - apply String.eqb_neq in Hne. by rewrite Hne.
  - destruct (String.eqb k0 k) eqn:E; simpl.
    + apply String.eqb_eq in E. subst k0.
      apply String.eqb_neq in Hne. by rewrite Hne.
    + by rewrite IH.
Qed.

Lemma get_None_keys d k : Dict.get d k = None <-> k ∉ Dict.keys d.
Proof.
  induction d as [|[k' v'] d IH]; simpl.
  - split; [intros _; apply not_elem_of_nil | done].
  - rewrite not_elem_of_cons.
    destruct (String.eqb k' k) eqn:E.
    + apply String.eqb_eq in E. split; [done | intros [? _]; congruence].
    + apply String.eqb_neq in E. rewrite IH. split; [split; congruence | tauto].
Qed.

Lemma has_keys d k : Dict.has d k = true <-> k ∈ Dict.keys d.
Proof.
  unfold Dict.has. destruct (Dict.get d k) eqn:E.
  - split; [intros _ | done].
    destruct (decide (k ∈ Dict.keys d)) as [|Hn]; [done|].
    apply get_None_keys in Hn. congruence.
  - apply get_None_keys in E. split; [done | tauto].
Qed.

Lemma set_fresh d k v : k ∉ Dict.keys d -> Dict.set d k v = d ++ [(k, v)].
Proof.
  induction d as [|[k' v'] d IH]; simpl; [done|].
  rewrite not_elem_of_cons. intros [Hne Hnin].
  apply not_eq_sym, String.eqb_neq in Hne. rewrite Hne. by rewrite IH.
Qed.

Lemma keys_set_present d k v :
  k ∈ Dict.keys d -> Dict.keys (Dict.set d k v) = Dict.keys d.
Proof.
  induction d as [|[k' v'] d IH]; simpl.
  - by intros ?%elem_of_nil.
  - intros Hin. destruct (String.eqb k' k) eqn:E; simpl; [done|].
    apply String.eqb_neq in E. apply elem_of_cons in Hin as [->|Hin]; [done|].
    by rewrite IH.
Qed.

Lemma keys_set d k v :
  Dict.keys (Dict.set d k v) =
  if Dict.has d k then Dict.keys d else Dict.keys d ++ [k].
Proof.
  destruct (Dict.has d k) eqn:E.
  - apply keys_set_present. by apply has_keys.
  - rewrite set_fresh.
    + unfold Dict.keys. by rewrite map_app.
    + intros Hin%has_keys. congruence.
Qed.

Lemma NoDup_keys_set d k v :
  NoDup (Dict.keys d) -> NoDup (Dict.keys (Dict.set d k v)).
Proof.
  intros Hd. rewrite keys_set. destruct (Dict.has d k) eqn:E; [done|].
  apply NoDup_app. split_and!; [done | | apply NoDup_singleton].
  intros x Hx ->%list_elem_of_singleton. apply has_keys in Hx. congruence.
Qed.

Lemma NoDup_keys_update d e :
  NoDup (Dict.keys d) -> NoDup (Dict.keys (Dict.update d e)).
Proof.
  unfold Dict.update. revert d.
  induction e as [|[k v] e IH]; simpl; intros d Hd; [done|].
  apply IH. by apply NoDup_keys_set.
Qed.

Lemma get_update_other d e k :
  k ∉ Dict.keys e -> Dict.get (Dict.update d e) k = Dict.get d k.
Proof.
  unfold Dict.update. revert d.
  induction e as [|[k' v'] e IH]; simpl; intros d Hk; [done|].
  apply not_elem_of_cons in Hk as [Hne Hk].
  rewrite IH by done. by apply get_set_ne.
Qed.

Lemma comprehension_acc (f : string -> V) ks d :
  NoDup ks -> (forall k, k ∈ ks -> k ∉ Dict.keys d) ->
  fold_left (fun acc k => Dict.set acc k (f k)) ks d =
  d ++ map (fun k => (k, f k)) ks.
Proof.
  revert d. induction ks as [|k ks IH]; simpl; intros d Hnd Hfresh.
  - by rewrite app_nil_r.
  - apply NoDup_cons in Hnd as [Hk Hnd].
    rewrite set_fresh by (apply Hfresh; left).
    rewrite IH; [by rewrite <- app_assoc | done |].
    intros k' Hk'. unfold Dict.keys. rewrite map_app. simpl.
    rewrite elem_of_app, list_elem_of_singleton.
    intros [Hin | ->]; [|done].
    eapply Hfresh; [right; exact Hk' | exact Hin].
Qed.

Lemma comprehension_NoDup (f : string -> V) ks :
  NoDup ks -> Dict.comprehension f ks = map (fun k => (k, f k)) ks.
Proof.
  intros Hnd. unfold Dict.comprehension.
  rewrite comprehension_acc; [done | done |].
  intros k _. apply not_elem_of_nil.
Qed.

Lemma get_tabulate (f : string -> V) ks k :
  Dict.get (map (fun k => (k, f k)) ks) k =
  if bool_decide (k ∈ ks) then Some (f k) else None.
Proof.
  induction ks as [|k' ks IH]; simpl; [done|].
  destruct (String.eqb k' k) eqn:E.
  - apply String.eqb_eq in E. subst k'.
    rewrite bool_decide_eq_true_2; [done | left].
  - apply String.eqb_neq in E. rewrite IH.
    destruct (decide (k ∈ ks)) as [Hin|Hn].
    + rewrite !bool_decide_eq_true_2; [done | by right | done].
    + rewrite !bool_decide_eq_false_2; [done | | done].
      rewrite not_elem_of_cons. split; congruence.
Qed.

End DictFacts.

Lemma set_set {V} (d : Dict.t V) k v v' :
  Dict.set (Dict.set d k v) k v' = Dict.set d k v'.
Proof.
  induction d as [|[k0 v0] d IH]; simpl.
  - by rewrite String.eqb_refl.
  - destruct (String.eqb k0 k) eqn:E; simpl; rewrite E; [done | by rewrite IH].
Qed.

Lemma has_get {V} (d : Dict.t V) k :
  Dict.has d k = bool_decide (is_Some (Dict.get d k)).
Proof.
  unfold Dict.has. destruct (Dict.get d k).
  - by rewrite bool_decide_eq_true_2.
  - rewrite bool_decide_eq_false_2; [done | by intros [? ?]].
Qed.

(** ** The classifier *)

Arguments _use_remote_browser : simpl never.

Lemma use_remote_spec env vars :
  _use_remote_browser env vars = true <->
  forall k, k ∈ vars -> is_Some (env !! k).
Proof.
  unfold _use_remote_browser. rewrite forallb_forall. split.
  - intros H k Hk. apply list_elem_of_In, H in Hk. simpl in Hk.
    by apply bool_decide_eq_true_1 in Hk.
  - intros H k Hk. apply bool_decide_eq_true_2, H. by apply list_elem_of_In.
Qed.

Lemma use_remote_false env vars k :
  k ∈ vars -> env !! k = None -> _use_remote_browser env vars = false.
Proof.
  intros Hk Hnone. apply not_true_is_false. rewrite use_remote_spec.
  intros H. destruct (H k Hk) as [v Hv]. congruence.
Qed.

Lemma remote_subset_sauce k : k ∈ REMOTE_ENV_VARS -> k ∈ SAUCE_ENV_VARS.
Proof. unfold SAUCE_ENV_VARS. intros H. apply elem_of_app. by left. Qed.

Lemma sauce_implies_remote env :
  _use_remote_browser env SAUCE_ENV_VARS = true ->
  _use_remote_browser env REMOTE_ENV_VARS = true.
Proof.
  rewrite !use_remote_spec. intros H k Hk. by apply H, remote_subset_sauce.
Qed.

Lemma NoDup_REMOTE : NoDup REMOTE_ENV_VARS.
Proof. apply (bool_decide_unpack _). by vm_compute. Qed.

Lemma NoDup_SAUCE : NoDup SAUCE_ENV_VARS.
Proof. apply (bool_decide_unpack _). by vm_compute. Qed.

(** ** The validator *)

Lemma missing_tabulate (env : gmap string string) ks :
  map fst (filter (fun kv => snd kv = None) (map (fun k => (k, env !! k)) ks))
  = filter (fun k => env !! k = None) ks.
Proof.
  induction ks as [|k ks IH]; [done|].
  simpl. rewrite !filter_cons. simpl.
  destruct (decide (env !! k = None)); simpl; by rewrite IH.
Qed.

(** [_required_envs] on a list of distinct names that has the browser
    variable, in closed form. *)
Lemma required_envs_eq env vars :
  NoDup vars -> "SELENIUM_BROWSER" ∈ vars ->
  _required_envs env vars =
  match filter (fun k => env !! k = None) vars with
  | [] =>
      match env !! "SELENIUM_BROWSER" with
      | Some s =>
          if Dict.has BROWSERS s
          then Ok (map (fun k => (k, env !! k)) vars)
          else Raise (BrowserConfigError ("Unsuppported browser: " +:+ s))
      | None => Raise (BrowserConfigError "Unsuppported browser: None")
      end
  | missing =>
      Raise (BrowserConfigError
               ("These environment variables must be set: " +:+
                String.concat ", " missing))
  end.
Proof.
  intros Hnd Hb. unfold _required_envs.
  rewrite comprehension_NoDup by done. rewrite missing_tabulate.
  destruct (filter (fun k => env !! k = None) vars) as [|m ms]; simpl; [|done].
  unfold getitem. rewrite get_tabulate. rewrite bool_decide_eq_true_2 by done.
  simpl. destruct (env !! "SELENIUM_BROWSER") as [s|]; simpl; [|done].
  by destruct (Dict.has BROWSERS s).
Qed.

Lemma filter_missing_nil (env : gmap string string) vars :
  filter (fun k => env !! k = None) vars = [] <->
  forall k, k ∈ vars -> is_Some (env !! k).
Proof.
  induction vars as [|k ks IH].
  - split; [intros _ k Hk; by apply elem_of_nil in Hk | done].
  - rewrite filter_cons. destruct (decide (env !! k = None)) as [Hn|Hs].
    + split; [done|]. intros H. destruct (H k) as [v Hv]; [left|]. congruence.
    + rewrite IH. split.
      * intros H k' [Heq|Hk']%elem_of_cons; [|by apply H].
        subst k'. destruct (env !! k); [by eexists | done].
      * intros H k' Hk'. apply H. by right.
Qed.

Lemma optional_envs_eq env :
  _optional_envs env =
  match env !! "JOB_NAME", env !! "BUILD_NUMBER" with
  | Some j, Some b => Ok [("JOB_NAME", Some j); ("BUILD_NUMBER", Some b)]
  | Some _, None =>
      Raise (BrowserConfigError "Missing BUILD_NUMBER environment var")
  | None, Some _ =>
      Raise (BrowserConfigError "Missing JOB_NAME environment var")
  | None, None => Ok []
  end.
Proof.
  unfold _optional_envs, OPTIONAL_ENV_VARS. rewrite !filter_cons, filter_nil.
  destruct (env !! "JOB_NAME") as [j|] eqn:Ej;
    destruct (env !! "BUILD_NUMBER") as [b|] eqn:Eb; simpl;
    unfold Dict.comprehension; simpl; rewrite ?Ej, ?Eb; reflexivity.
Qed.

(** ** The capability builder *)

(** Membership in one of the literal variable lists. *)
Ltac in_list := apply list_elem_of_In; simpl; tauto.

Ltac case_get d k :=
  let E := fresh "E" in
  destruct (Dict.get d k) eqn:E; simpl;
  try (let H := fresh in intros H; discriminate H).

(** Whatever [_capabilities_dict] returns has the layout above: the base
    block, then the SauceLabs block, then the Jenkins block. *)
Lemma capabilities_dict_inv env envs tags caps :
  _capabilities_dict env envs tags = Ok caps ->
  is_Some (Dict.get envs "SELENIUM_BROWSER") /\ caps = caps_layout env envs tags.
Proof.
  unfold _capabilities_dict, caps_layout, sauce_caps, job_caps, item, getitem,
    Dict.has.
  case_get envs "SELENIUM_BROWSER".
  destruct (_use_remote_browser env SAUCE_ENV_VARS); simpl.
  - case_get envs "SELENIUM_PLATFORM". case_get envs "SELENIUM_VERSION".
    case_get envs "SAUCE_USER_NAME". case_get envs "SAUCE_API_KEY".
    case_get envs "JOB_NAME".
    + case_get envs "BUILD_NUMBER". intros [= <-]. split; [by eexists | reflexivity].
    + intros [= <-]. split; [by eexists | reflexivity].
  - case_get envs "JOB_NAME".
    + case_get envs "BUILD_NUMBER". intros [= <-]. split; [by eexists | reflexivity].
    + intros [= <-]. split; [by eexists | reflexivity].
Qed.

(** It does return when the keys it reads are there. *)
Lemma capabilities_dict_ok env envs tags :
  is_Some (Dict.get envs "SELENIUM_BROWSER") ->
  (_use_remote_browser env SAUCE_ENV_VARS = true ->
   forall k, k ∈ SAUCE_ENV_VARS -> is_Some (Dict.get envs k)) ->
  (Dict.has envs "JOB_NAME" = true -> is_Some (Dict.get envs "BUILD_NUMBER")) ->
  _capabilities_dict env envs tags = Ok (caps_layout env envs tags).
Proof.
  intros [b Hb] Hsauce Hjob.
  unfold _capabilities_dict, caps_layout, sauce_caps, job_caps, item, getitem.
  rewrite Hb. simpl.
  destruct (_use_remote_browser env SAUCE_ENV_VARS); simpl.
  - destruct (Hsauce eq_refl "SELENIUM_PLATFORM") as [? ->]; [in_list|].
    destruct (Hsauce eq_refl "SELENIUM_VERSION") as [? ->]; [in_list|].
    destruct (Hsauce eq_refl "SAUCE_USER_NAME") as [? ->]; [in_list|].
    destruct (Hsauce eq_refl "SAUCE_API_KEY") as [? ->]; [in_list|].
    simpl. destruct (Dict.has envs "JOB_NAME") eqn:Ej; [|done].
    destruct (Hjob eq_refl) as [? ->]. simpl.
    unfold Dict.has in Ej. by destruct (Dict.get envs "JOB_NAME").
  - destruct (Dict.has envs "JOB_NAME") eqn:Ej; [|done].
    destruct (Hjob eq_refl) as [? ->]. simpl.
    unfold Dict.has in Ej. by destruct (Dict.get envs "JOB_NAME").
Qed.

(** ** The remote branch *)

Lemma required_present env vars :
  NoDup vars -> "SELENIUM_BROWSER" ∈ vars ->
  (forall k, k ∈ vars -> is_Some (env !! k)) ->
  forall s, env !! "SELENIUM_BROWSER" = Some s ->
  _required_envs env vars =
  if Dict.has BROWSERS s
  then Ok (map (fun k => (k, env !! k)) vars)
  else Raise (BrowserConfigError ("Unsuppported browser: " +:+ s)).
Proof.
  intros Hnd Hb Hall s Hs. rewrite required_envs_eq by done.
  apply filter_missing_nil in Hall. rewrite Hall, Hs. done.
Qed.

(** Remote mode, closed form: the three required variables are set, the
    SauceLabs set is not complete. *)
Lemma remote_branch env tags s h p :
  env !! "SELENIUM_BROWSER" = Some s ->
  env !! "SELENIUM_HOST" = Some h ->
  env !! "SELENIUM_PORT" = Some p ->
  _use_remote_browser env SAUCE_ENV_VARS = false ->
  _remote_browser_class env REMOTE_ENV_VARS tags =
  if Dict.has BROWSERS s then
    try job := jenkins env in
    Ok (Remote, [],
        remote_kwargs h p (base_caps (PStr s) (tags_or_empty tags) ++ job))
  else Raise (BrowserConfigError ("Unsuppported browser: " +:+ s)).
Proof.
  intros Hs Hh Hp Hsauce. unfold _remote_browser_class.
  rewrite (required_present env REMOTE_ENV_VARS NoDup_REMOTE) with (s := s);
    [ | in_list | | done ].
  2:{ intros k Hk. unfold REMOTE_ENV_VARS in Hk.
      repeat (apply elem_of_cons in Hk as [-> | Hk]; [by eexists|]).
      by apply elem_of_nil in Hk. }
  destruct (Dict.has BROWSERS s); [|done].
  unfold REMOTE_ENV_VARS. cbn [map bind]. rewrite Hs, Hh, Hp.
  rewrite optional_envs_eq. unfold jenkins.
  destruct (env !! "JOB_NAME") as [j|], (env !! "BUILD_NUMBER") as [b|];
    cbn [bind]; try reflexivity;
    unfold _capabilities_dict; rewrite Hsauce; reflexivity.
Qed.

(** SauceLabs mode, closed form: all seven variables are set. *)
Lemma sauce_branch env tags s h p ver plat user key :
  env !! "SELENIUM_BROWSER" = Some s ->
  env !! "SELENIUM_HOST" = Some h ->
  env !! "SELENIUM_PORT" = Some p ->
  env !! "SELENIUM_VERSION" = Some ver ->
  env !! "SELENIUM_PLATFORM" = Some plat ->
  env !! "SAUCE_USER_NAME" = Some user ->
  env !! "SAUCE_API_KEY" = Some key ->
  _remote_browser_class env SAUCE_ENV_VARS tags =
  if Dict.has BROWSERS s then
    try job := jenkins env in
    Ok (Remote, [],
        remote_kwargs h p
          (base_caps (PStr s) (tags_or_empty tags)
           ++ [("platform", PStr plat); ("version", PStr ver);
               ("username", PStr user); ("accessKey", PStr key)]
           ++ job))
  else Raise (BrowserConfigError ("Unsuppported browser: " +:+ s)).
Proof.
  intros Hs Hh Hp Hver Hplat Huser Hkey.
  assert (Hall : forall k, k ∈ SAUCE_ENV_VARS -> is_Some (env !! k)).
  { intros k Hk. unfold SAUCE_ENV_VARS, REMOTE_ENV_VARS in Hk. simpl in Hk.
    repeat (apply elem_of_cons in Hk as [-> | Hk]; [by eexists|]).
    by apply elem_of_nil in Hk. }
  assert (Hsauce : _use_remote_browser env SAUCE_ENV_VARS = true)
    by by apply use_remote_spec.
  unfold _remote_browser_class.
  rewrite (required_present env SAUCE_ENV_VARS NoDup_SAUCE) with (s := s);
    [ | in_list | done | done ].
  destruct (Dict.has BROWSERS s); [|done].
  unfold SAUCE_ENV_VARS, REMOTE_ENV_VARS. cbn [map bind app].
  rewrite Hs, Hh, Hp, Hver, Hplat, Huser, Hkey.
  rewrite optional_envs_eq. unfold jenkins.
  destruct (env !! "JOB_NAME") as [j|], (env !! "BUILD_NUMBER") as [b|];
    cbn [bind]; try reflexivity;
    unfold _capabilities_dict; rewrite Hsauce; reflexivity.
Qed.

(** ** Proxy augmentation *)

Lemma proxy_kwargs_eq name p kwargs :
  _proxy_kwargs name p kwargs =
  match Dict.get proxy_type name with
  | None => Raise (KeyError name)
  | Some ty =>
      if String.eqb name "firefox"
         && negb (Dict.has kwargs "desired_capabilities")
      then Ok (Dict.set kwargs "capabilities" (PDict (proxy_entry p ty)))
      else
        match Dict.get kwargs "desired_capabilities" with
        | None =>
            Ok (Dict.set kwargs "desired_capabilities"
                  (PDict (proxy_entry p ty)))
        | Some (PDict c) =>
            Ok (Dict.set kwargs "desired_capabilities"
                  (PDict (Dict.set c "proxy" (PDict (proxy_block p ty)))))
        | Some _ => Raise (AttributeError "update")
        end
  end.
Proof.
  unfold _proxy_kwargs, getitem.
  destruct (Dict.get proxy_type name) as [ty|]; [|done]. cbn [bind].
  destruct (String.eqb name "firefox"
            && negb (Dict.has kwargs "desired_capabilities")).
  - rewrite get_set_eq. cbn [bind py_update]. by rewrite set_set.
  - unfold Dict.has.
    destruct (Dict.get kwargs "desired_capabilities") as [c|] eqn:E; cbn [negb].
    + rewrite E. cbn [bind]. by destruct c.
    + rewrite get_set_eq. cbn [bind py_update]. by rewrite set_set.
Qed.

(** The two tables have the same keys. *)
Lemma proxy_type_supported name :
  is_Some (Dict.get proxy_type name) <-> is_Some (Dict.get BROWSERS name).
Proof.
  assert (Hkeys : forall name, name ∈ Dict.keys proxy_type <->
                               name ∈ Dict.keys BROWSERS).
  { intros n. unfold Dict.keys, proxy_type, BROWSERS. simpl.
    rewrite !elem_of_cons, !elem_of_nil. tauto. }
  split; intros [v Hv].
  - destruct (Dict.get BROWSERS name) eqn:E; [by eexists|].
    apply get_None_keys in E. exfalso. apply E, Hkeys.
    destruct (decide (name ∈ Dict.keys proxy_type)) as [|Hn]; [done|].
    apply get_None_keys in Hn. congruence.
  - destruct (Dict.get proxy_type name) eqn:E; [by eexists|].
    apply get_None_keys in E. exfalso. apply E, Hkeys.
    destruct (decide (name ∈ Dict.keys BROWSERS)) as [|Hn]; [done|].
    apply get_None_keys in Hn. congruence.
Qed.

(** ** The dispatcher *)

Lemma browser_by_mode env tags proxy :
  browser env tags proxy =
  instantiate env proxy
    match resolve_mode env with
    | ManagedCloud => _remote_browser_class env SAUCE_ENV_VARS tags
    | RemoteMode => _remote_browser_class env REMOTE_ENV_VARS tags
    | Local =>
        _local_browser_class
          match env !! "SELENIUM_BROWSER" with Some s => s | None => "firefox" end
    end.
Proof.
  unfold browser, instantiate, resolve_mode.
  destruct (_use_remote_browser env SAUCE_ENV_VARS); [done|].
  by destruct (_use_remote_browser env REMOTE_ENV_VARS).
Qed.

Lemma resolve_mode_cases env :
  (resolve_mode env = ManagedCloud <->
   forall k, k ∈ SAUCE_ENV_VARS -> is_Some (env !! k))
  /\ (resolve_mode env = RemoteMode <->
      (forall k, k ∈ REMOTE_ENV_VARS -> is_Some (env !! k))
      /\ ~ (forall k, k ∈ SAUCE_ENV_VARS -> is_Some (env !! k)))
  /\ (resolve_mode env = Local <->
      ~ (forall k, k ∈ REMOTE_ENV_VARS -> is_Some (env !! k))).
Proof.
  unfold resolve_mode. rewrite <- !use_remote_spec.
  destruct (_use_remote_browser env SAUCE_ENV_VARS) eqn:Es.
  - rewrite (sauce_implies_remote env Es). intuition congruence.
  - destruct (_use_remote_browser env REMOTE_ENV_VARS); intuition congruence.
Qed.

(** A remote session after the proxy step: the constructor, the endpoint
    and every capability other than [proxy] are what the branch built. *)
Lemma instantiate_remote env proxy h p caps inst :
  instantiate env proxy (Ok (Remote, [], remote_kwargs h p caps)) = Ok inst ->
  browser_class inst = Remote
  /\ browser_args inst = []
  /\ Dict.get (browser_kwargs inst) "command_executor"
     = Some (PStr ("http://" +:+ h +:+ ":" +:+ p +:+ "/wd/hub"))
  /\ exists caps',
      Dict.get (browser_kwargs inst) "desired_capabilities" = Some (PDict caps')
      /\ (forall k, k <> "proxy" -> Dict.get caps' k = Dict.get caps k)
      /\ (proxy = None -> caps' = caps).
Proof.
  unfold instantiate. cbn [bind]. destruct proxy as [px|]; cbn [bind].
  - rewrite proxy_kwargs_eq.
    destruct (Dict.get proxy_type _) as [ty|]; [|done].
    replace (Dict.has (remote_kwargs h p caps) "desired_capabilities")
      with true by reflexivity.
    rewrite andb_false_r.
    replace (Dict.get (remote_kwargs h p caps) "desired_capabilities")
      with (Some (PDict caps)) by reflexivity.
    intros [= <-]. cbn. split_and!; try done.
    eexists. split_and!; [done | | done].
    intros k Hk. by apply get_set_ne.
  - intros [= <-]. cbn. split_and!; try done. by eexists.
Qed.

Lemma present_in (env : gmap string string) (vars : list string) k :
  (forall k, k ∈ vars -> is_Some (env !! k)) -> k ∈ vars ->
  exists v, env !! k = Some v.
Proof. intros H Hk. exact (H k Hk). Qed.

(** ** Scenarios *)

Example empty_environment_is_local_firefox :
  resolve_mode ∅ = Local
  /\ browser ∅ None None = Ok (Instantiate Firefox [] []).
Proof. by vm_compute. Qed.

Example sauce_scenario :
  browser sauce_firefox_env (Some ["smoke"; "ci"]) None =
  Ok (Instantiate Remote []
        (remote_kwargs "localhost" "4445"
           (base_caps (PStr "firefox") ["smoke"; "ci"]
            ++ [("platform", PStr "Linux"); ("version", PStr "38");
                ("username", PStr "ci-user"); ("accessKey", PStr "0000-1111")]))).
Proof. by vm_compute. Qed.

Example remote_scenario_with_proxy :
  browser remote_chrome_env None (Some {| host := "localhost:8080" |}) =
  Ok (Instantiate Remote []
        (remote_kwargs "localhost" "4444"
           (base_caps (PStr "chrome") []
            ++ proxy_entry {| host := "localhost:8080" |} "AUTODETECT"))).
Proof. by vm_compute. Qed.

(** ** Claims *)

(** C1.  When every SauceLabs variable is set, the call resolves to the
    SauceLabs (managed cloud) branch although the three remote variables
    are set as well: [browser] runs [_remote_browser_class] on
    [SAUCE_ENV_VARS], and a session it returns is a remote one whose
    capabilities carry the access key.  The SauceLabs set is tested first,
    the remote set second, and the local branch is what is left. *)
Theorem managed_cloud_checked_first env tags proxy :
  ((forall k, k ∈ SAUCE_ENV_VARS -> is_Some (env !! k)) ->
   _use_remote_browser env REMOTE_ENV_VARS = true
   /\ resolve_mode env = ManagedCloud
   /\ browser env tags proxy
      = instantiate env proxy (_remote_browser_class env SAUCE_ENV_VARS tags)
   /\ (forall inst, browser env tags proxy = Ok inst ->
       browser_class inst = Remote
       /\ exists caps,
           Dict.get (browser_kwargs inst) "desired_capabilities"
           = Some (PDict caps)
           /\ is_Some (Dict.get caps "accessKey")))
  /\ (resolve_mode env = RemoteMode <->
      (forall k, k ∈ REMOTE_ENV_VARS -> is_Some (env !! k))
      /\ ~ (forall k, k ∈ SAUCE_ENV_VARS -> is_Some (env !! k)))
  /\ (resolve_mode env = Local <->
      ~ (forall k, k ∈ REMOTE_ENV_VARS -> is_Some (env !! k))).
Proof.
  destruct (resolve_mode_cases env) as (Hmc & Hrm & Hlc).
  split; [|by split].
  intros Hall. assert (Hmode := proj2 Hmc Hall).
  assert (Heq : browser env tags proxy
                = instantiate env proxy
                    (_remote_browser_class env SAUCE_ENV_VARS tags))
    by by rewrite browser_by_mode, Hmode.
  split_and!; [ | done | done | ].
  - by apply sauce_implies_remote, use_remote_spec.
  - intros inst. rewrite Heq.
    destruct (present_in env _ "SELENIUM_BROWSER" Hall) as [s Hs]; [in_list|].
    destruct (present_in env _ "SELENIUM_HOST" Hall) as [h Hh]; [in_list|].
    destruct (present_in env _ "SELENIUM_PORT" Hall) as [p Hp]; [in_list|].
    destruct (present_in env _ "SELENIUM_VERSION" Hall) as [ver Hver];
      [in_list|].
    destruct (present_in env _ "SELENIUM_PLATFORM" Hall) as [plat Hplat];
      [in_list|].
    destruct (present_in env _ "SAUCE_USER_NAME" Hall) as [user Huser];
      [in_list|].
    destruct (present_in env _ "SAUCE_API_KEY" Hall) as [key Hkey];
      [in_list|].
    rewrite (sauce_branch env tags s h p ver plat user key) by done.
    destruct (Dict.has BROWSERS s); [|done].
    destruct (jenkins env) as [job|]; [|done]. cbn [bind].
    intros (Hcls & _ & _ & caps' & Hdc & Hframe & _)%instantiate_remote.
    split; [done|]. exists caps'. split; [done|].
    rewrite Hframe by done. by eexists.
Qed.

Lemma sauce_firefox_env_complete k :
  k ∈ SAUCE_ENV_VARS -> is_Some (sauce_firefox_env !! k).
Proof.
  intros Hk. unfold SAUCE_ENV_VARS, REMOTE_ENV_VARS in Hk. simpl in Hk.
  repeat (apply elem_of_cons in Hk as [-> | Hk]; [by eexists|]).
  by apply elem_of_nil in Hk.
Qed.

Lemma managed_cloud_checked_first_witness :
  (forall k, k ∈ SAUCE_ENV_VARS -> is_Some (sauce_firefox_env !! k))
  /\ resolve_mode sauce_firefox_env = ManagedCloud.
Proof.
  split; [exact sauce_firefox_env_complete|].
  apply (managed_cloud_checked_first sauce_firefox_env (Some ["smoke"; "ci"]) None).
  exact sauce_firefox_env_complete.
Defined.

Lemma missing_remote_var_is_local env k :
  k ∈ REMOTE_ENV_VARS -> env !! k = None -> resolve_mode env = Local.
Proof.
  intros Hk Hnone. unfold resolve_mode.
  rewrite (use_remote_false env SAUCE_ENV_VARS k (remote_subset_sauce k Hk) Hnone).
  by rewrite (use_remote_false env REMOTE_ENV_VARS k Hk Hnone).
Qed.

(** The local branch, closed form. *)
Lemma local_session env proxy name cls :
  name = match env !! "SELENIUM_BROWSER" with Some s => s | None => "firefox" end ->
  Dict.get BROWSERS name = Some cls ->
  exists ty, Dict.get proxy_type name = Some ty /\
  instantiate env proxy (_local_browser_class name) =
  Ok (Instantiate cls []
        match proxy with
        | None => []
        | Some p =>
            [(if String.eqb name "firefox" then "capabilities"
              else "desired_capabilities", PDict (proxy_entry p ty))]
        end).
Proof.
  intros Hname Hcls.
  destruct (proj2 (proxy_type_supported name)) as [ty Hty]; [by eexists|].
  exists ty. split; [done|].
  unfold instantiate, _local_browser_class. rewrite Hcls. cbn [bind].
  destruct proxy as [p|]; cbn [bind]; [|done].
  rewrite <- Hname, proxy_kwargs_eq, Hty.
  by destruct (String.eqb name "firefox").
Qed.

(** C2.  When one of [SELENIUM_BROWSER], [SELENIUM_HOST], [SELENIUM_PORT]
    is not set, the call takes the local branch and raises nothing, as long
    as the browser name (the variable, or [firefox] when it is unset) is a
    supported one: it returns the constructor call of that local browser,
    with no keyword arguments other than a requested proxy. *)
Theorem partial_remote_falls_back_to_local env tags proxy k cls :
  k ∈ REMOTE_ENV_VARS -> env !! k = None ->
  Dict.get BROWSERS
    match env !! "SELENIUM_BROWSER" with Some s => s | None => "firefox" end
  = Some cls ->
  resolve_mode env = Local
  /\ exists kwargs,
      browser env tags proxy = Ok (Instantiate cls [] kwargs)
      /\ (proxy = None -> kwargs = []).
Proof.
  intros Hk Hnone Hcls.
  assert (Hmode := missing_remote_var_is_local env k Hk Hnone).
  split; [done|]. rewrite browser_by_mode, Hmode.
  destruct (local_session env proxy _ cls eq_refl Hcls) as (ty & _ & ->).
  eexists. split; [reflexivity|]. by intros ->.
Qed.

Lemma partial_remote_falls_back_to_local_witness :
  resolve_mode (list_to_map [("SELENIUM_HOST", "localhost")]) = Local
  /\ exists kwargs,
      browser (list_to_map [("SELENIUM_HOST", "localhost")]) (Some ["smoke"]) None
      = Ok (Instantiate Firefox [] kwargs)
      /\ ((None : option Proxy) = None -> kwargs = []).
Proof.
  apply (partial_remote_falls_back_to_local
           (list_to_map [("SELENIUM_HOST", "localhost")]) (Some ["smoke"]) None
           "SELENIUM_PORT" Firefox).
  - unfold REMOTE_ENV_VARS. apply list_elem_of_In. simpl. tauto.
  - reflexivity.
  - reflexivity.
Defined.

(** Both remote modes at once: what [browser] does when the three remote
    variables are set. *)
Lemma remote_modes env tags proxy :
  resolve_mode env <> Local ->
  exists s h p,
    env !! "SELENIUM_BROWSER" = Some s
    /\ env !! "SELENIUM_HOST" = Some h
    /\ env !! "SELENIUM_PORT" = Some p
    /\ browser env tags proxy =
       instantiate env proxy
         (if Dict.has BROWSERS s then
            try job := jenkins env in
            Ok (Remote, [],
                remote_kwargs h p
                  (base_caps (PStr s) (tags_or_empty tags)
                   ++ sauce_block env ++ job))
          else Raise (BrowserConfigError ("Unsuppported browser: " +:+ s))).
Proof.
  intros Hmode. rewrite browser_by_mode. unfold sauce_block.
  unfold resolve_mode in *.
  destruct (_use_remote_browser env SAUCE_ENV_VARS) eqn:Es.
  - assert (Hall := proj1 (use_remote_spec _ _) Es).
    destruct (present_in env _ "SELENIUM_BROWSER" Hall) as [s Hs]; [in_list|].
    destruct (present_in env _ "SELENIUM_HOST" Hall) as [h Hh]; [in_list|].
    destruct (present_in env _ "SELENIUM_PORT" Hall) as [p Hp]; [in_list|].
    destruct (present_in env _ "SELENIUM_VERSION" Hall) as [ver Hver];
      [in_list|].
    destruct (present_in env _ "SELENIUM_PLATFORM" Hall) as [plat Hplat];
      [in_list|].
    destruct (present_in env _ "SAUCE_USER_NAME" Hall) as [user Huser];
      [in_list|].
    destruct (present_in env _ "SAUCE_API_KEY" Hall) as [key Hkey]; [in_list|].
    exists s, h, p. split_and!; try done.
    rewrite (sauce_branch env tags s h p ver plat user key) by done.
    by rewrite Hver, Hplat, Huser, Hkey.
  - destruct (_use_remote_browser env REMOTE_ENV_VARS) eqn:Er; [|done].
    assert (Hall := proj1 (use_remote_spec _ _) Er).
    destruct (present_in env _ "SELENIUM_BROWSER" Hall) as [s Hs]; [in_list|].
    destruct (present_in env _ "SELENIUM_HOST" Hall) as [h Hh]; [in_list|].
    destruct (present_in env _ "SELENIUM_PORT" Hall) as [p Hp]; [in_list|].
    exists s, h, p. split_and!; try done.
    by rewrite (remote_branch env tags s h p).
Qed.

Lemma use_remote_delete env vars j :
  j ∉ vars ->
  _use_remote_browser (delete j env) vars = _use_remote_browser env vars.
Proof.
  intros Hj. apply eq_true_iff_eq. rewrite !use_remote_spec.
  assert (Hne : forall k, k ∈ vars -> j <> k) by (intros k Hk ->; done).
  split; intros H k Hk; specialize (H k Hk).
  - by rewrite lookup_delete_ne in H by auto.
  - by rewrite lookup_delete_ne by auto.
Qed.

Lemma resolve_mode_delete env j :
  j ∉ SAUCE_ENV_VARS -> resolve_mode (delete j env) = resolve_mode env.
Proof.
  intros Hj. unfold resolve_mode. rewrite !use_remote_delete; [done | | done].
  intros Hin. by apply Hj, remote_subset_sauce.
Qed.

Lemma instantiate_raise env proxy e : instantiate env proxy (Raise e) = Raise e.
Proof. reflexivity. Qed.

(** C3, as the code has it.  The Jenkins pair is read by the remote branch
    only.  When the three remote variables are set (remote or SauceLabs
    mode) and exactly one of [JOB_NAME], [BUILD_NUMBER] is set, the call
    raises [BrowserConfigError]; with a supported browser the message names
    the variable that is missing.  In local mode the two variables are not
    read: the call does the same with both removed. *)
Theorem unpaired_job_variable env tags proxy :
  (resolve_mode env <> Local ->
   (is_Some (env !! "JOB_NAME") /\ env !! "BUILD_NUMBER" = None)
   \/ (env !! "JOB_NAME" = None /\ is_Some (env !! "BUILD_NUMBER")) ->
   exists msg,
     browser env tags proxy = Raise (BrowserConfigError msg)
     /\ (forall s, env !! "SELENIUM_BROWSER" = Some s ->
         Dict.has BROWSERS s = true ->
         msg = match env !! "BUILD_NUMBER" with
               | None => "Missing BUILD_NUMBER environment var"
               | Some _ => "Missing JOB_NAME environment var"
               end))
  /\ (resolve_mode env = Local ->
      browser env tags proxy
      = browser (delete "JOB_NAME" (delete "BUILD_NUMBER" env)) tags proxy).
Proof.
  split.
  - intros Hmode Hpair.
    destruct (remote_modes env tags proxy Hmode) as (s & h & p & Hs & _ & _ & ->).
    destruct (Dict.has BROWSERS s) eqn:Hsup.
    + unfold jenkins.
      destruct Hpair as [[[j ->] ->] | [-> [b ->]]]; cbn [bind];
        rewrite instantiate_raise; eexists; (split; [reflexivity|]); done.
    + rewrite instantiate_raise. eexists. split; [reflexivity|].
      intros s' Hs' Hsup'. congruence.
  - intros Hmode. rewrite !browser_by_mode.
    assert (Hnb : "BUILD_NUMBER" ∉ SAUCE_ENV_VARS).
    { intros H%list_elem_of_In. simpl in H. intuition discriminate. }
    assert (Hnj : "JOB_NAME" ∉ SAUCE_ENV_VARS).
    { intros H%list_elem_of_In. simpl in H. intuition discriminate. }
    rewrite !resolve_mode_delete by done. rewrite Hmode.
    unfold instantiate. by rewrite !lookup_delete_ne.
Qed.

Lemma unpaired_job_variable_witness :
  exists msg,
    browser remote_job_only_env None None = Raise (BrowserConfigError msg)
    /\ (forall s, remote_job_only_env !! "SELENIUM_BROWSER" = Some s ->
        Dict.has BROWSERS s = true ->
        msg = match remote_job_only_env !! "BUILD_NUMBER" with
              | None => "Missing BUILD_NUMBER environment var"
              | Some _ => "Missing JOB_NAME environment var"
              end).
Proof.
  apply (unpaired_job_variable remote_job_only_env None None).
  - vm_compute. discriminate.
  - left. split; [by eexists | reflexivity].
Defined.

(** C3, as stated, fails in local mode: with only [JOB_NAME] set the call
    returns the local Firefox constructor call and raises nothing. *)
Lemma job_name_alone_accepted_locally :
  job_only_env !! "JOB_NAME" = Some "nightly"
  /\ job_only_env !! "BUILD_NUMBER" = None
  /\ resolve_mode job_only_env = Local
  /\ browser job_only_env None None = Ok (Instantiate Firefox [] []).
Proof. by vm_compute. Qed.

Lemma get_base_tags b tags rest :
  Dict.get (base_caps b tags ++ rest) "tags" = Some (PList tags).
Proof. reflexivity. Qed.

(** In local mode the tags are ignored, as the docstring of [browser]
    says: no capabilities are built and the call does the same without
    them. *)
Lemma tags_ignored_locally env tags proxy :
  resolve_mode env = Local ->
  browser env tags proxy = browser env None proxy.
Proof. intros Hmode. by rewrite !browser_by_mode, Hmode. Qed.

(** In SauceLabs mode the tags are attached, as the docstring says. *)
Lemma tags_attached_for_sauce env tags proxy inst :
  resolve_mode env = ManagedCloud ->
  browser env tags proxy = Ok inst ->
  exists caps,
    Dict.get (browser_kwargs inst) "desired_capabilities" = Some (PDict caps)
    /\ Dict.get caps "tags" = Some (PList (tags_or_empty tags)).
Proof.
  intros Hmode.
  assert (Hnl : resolve_mode env <> Local) by congruence.
  destruct (remote_modes env tags proxy Hnl) as (s & h & p & _ & _ & _ & ->).
  destruct (Dict.has BROWSERS s); [|done].
  destruct (jenkins env) as [job|]; [|done]. cbn [bind].
  intros (_ & _ & _ & caps' & Hdc & Hframe & _)%instantiate_remote.
  exists caps'. split; [done|].
  rewrite Hframe by done. apply get_base_tags.
Qed.

(** C4.  The docstring of [browser] says that the tags are applied to the
    SauceLabs job and are ignored when SauceLabs is not used, and the claim
    says the same.  In remote mode the code does not ignore them.  For
    [SELENIUM_BROWSER=chrome], [SELENIUM_HOST=localhost],
    [SELENIUM_PORT=4444] and the tag [smoke] the mode is remote, not
    SauceLabs, and yet the capabilities handed to the session carry the
    tag: the call with the tag and the call without it give different
    sessions.  The tag list sits in the base block of [_capabilities_dict],
    outside the test that guards the SauceLabs keys. *)
Theorem remote_mode_sends_tags :
  resolve_mode remote_chrome_env = RemoteMode
  /\ _use_remote_browser remote_chrome_env SAUCE_ENV_VARS = false
  /\ browser remote_chrome_env (Some ["smoke"]) None
     = Ok (Instantiate Remote []
             (remote_kwargs "localhost" "4444"
                (base_caps (PStr "chrome") ["smoke"])))
  /\ Dict.get (base_caps (PStr "chrome") ["smoke"]) "tags"
     = Some (PList ["smoke"])
  /\ Dict.get (base_caps (PStr "chrome") ["smoke"]) "tags" <> Some (PList [])
  /\ browser remote_chrome_env (Some ["smoke"]) None
     <> browser remote_chrome_env None None.
Proof.
  split_and!; by vm_compute.
Qed.

(** C5, as the code has it.  [_required_envs] tests that every variable of
    the mode's list is set, not that its value is non-empty.  When some are
    unset it raises [BrowserConfigError] with the names of all the unset
    ones, in the order of the list.  It returns exactly when every variable
    of the list is set and [SELENIUM_BROWSER] names a supported browser,
    and then returns the variables with their values. *)
Theorem required_envs_validation env vars :
  vars = REMOTE_ENV_VARS \/ vars = SAUCE_ENV_VARS ->
  (forall k, k ∈ filter (fun k => env !! k = None) vars <->
             k ∈ vars /\ env !! k = None)
  /\ (filter (fun k => env !! k = None) vars <> [] ->
      _required_envs env vars =
      Raise (BrowserConfigError
               ("These environment variables must be set: " +:+
                String.concat ", " (filter (fun k => env !! k = None) vars))))
  /\ ((exists envs, _required_envs env vars = Ok envs) <->
      (forall k, k ∈ vars -> is_Some (env !! k))
      /\ exists s, env !! "SELENIUM_BROWSER" = Some s
                   /\ is_Some (Dict.get BROWSERS s))
  /\ (forall envs, _required_envs env vars = Ok envs ->
      envs = map (fun k => (k, env !! k)) vars).
Proof.
  intros Hvars.
  assert (Hnd : NoDup vars) by (destruct Hvars as [-> | ->];
                                [apply NoDup_REMOTE | apply NoDup_SAUCE]).
  assert (Hb : "SELENIUM_BROWSER" ∈ vars) by (destruct Hvars as [-> | ->]; in_list).
  rewrite (required_envs_eq env vars Hnd Hb).
  split; [|split; [|split]].
  - intros k. by rewrite list_elem_of_filter, (comm and).
  - by destruct (filter (fun k => env !! k = None) vars).
  - rewrite <- filter_missing_nil.
    destruct (filter (fun k => env !! k = None) vars) as [|m ms].
    + destruct (env !! "SELENIUM_BROWSER") as [s|].
      * rewrite has_get. destruct (decide (is_Some (Dict.get BROWSERS s))) as [Hs|Hs].
        -- rewrite bool_decide_eq_true_2 by done.
           split; [intros _; split; [done | by exists s] | by eexists].
        -- rewrite bool_decide_eq_false_2 by done.
           split; [by intros [? ?] | intros [_ (s' & [= <-] & ?)]; done].
      * split; [by intros [? ?] | by intros [_ (s' & ? & _)]].
    + split; [by intros [? ?] | by intros [? _]].
  - intros envs.
    destruct (filter (fun k => env !! k = None) vars); [|done].
    destruct (env !! "SELENIUM_BROWSER") as [s|]; [|done].
    destruct (Dict.has BROWSERS s); by intros [= <-].
Qed.

Lemma required_envs_validation_witness :
  _required_envs host_only_env SAUCE_ENV_VARS =
  Raise (BrowserConfigError
           ("These environment variables must be set: " +:+
            String.concat ", "
              (filter (fun k => host_only_env !! k = None) SAUCE_ENV_VARS))).
Proof.
  refine (proj1 (proj2
            (required_envs_validation host_only_env SAUCE_ENV_VARS _)) _).
  - right. reflexivity.
  - vm_compute. discriminate.
Defined.

(** C5, as stated, fails for a variable set to the empty string: it counts
    as set, validation succeeds and the session is built with it. *)
Lemma empty_value_passes_validation :
  "SELENIUM_HOST" ∈ REMOTE_ENV_VARS
  /\ remote_empty_host_env !! "SELENIUM_HOST" = Some ""
  /\ _required_envs remote_empty_host_env REMOTE_ENV_VARS
     = Ok [("SELENIUM_BROWSER", Some "chrome"); ("SELENIUM_HOST", Some "");
           ("SELENIUM_PORT", Some "4444")]
  /\ browser remote_empty_host_env None None
     = Ok (Instantiate Remote []
             (remote_kwargs "" "4444" (base_caps (PStr "chrome") []))).
Proof. split; [in_list | by vm_compute]. Qed.

Lemma contains_app_r needle a b :
  contains needle b = true -> contains needle (a +:+ b) = true.
Proof.
  intros Hb. induction a as [|c a IH]; [exact Hb|].
  change (String c a +:+ b) with (String c (a +:+ b)).
  cbn [contains]. rewrite IH. by destruct (String.prefix needle _).
Qed.

Lemma local_message_enumerates name :
  enumerates_browsers
    ("Invalid browser name " +:+ name +:+
     ".  Options are: " +:+ String.concat ", " (Dict.keys BROWSERS)) = true.
Proof.
  unfold enumerates_browsers. apply forallb_forall. intros k Hk.
  do 2 apply contains_app_r. simpl in Hk.
  repeat (destruct Hk as [<- | Hk]; [by vm_compute|]). done.
Qed.

(** C6, as the code has it.  An unsupported browser name raises
    [BrowserConfigError] in every mode, with two different messages.  The
    local branch names the offending identifier and lists the supported
    ones; the remote and SauceLabs branches name the offending identifier
    only. *)
Theorem unsupported_browser_rejected env tags proxy name :
  name = match env !! "SELENIUM_BROWSER" with Some s => s | None => "firefox" end ->
  Dict.get BROWSERS name = None ->
  (resolve_mode env = Local ->
   browser env tags proxy =
   Raise (BrowserConfigError
            ("Invalid browser name " +:+ name +:+
             ".  Options are: firefox, chrome, internet explorer, safari"))
   /\ enumerates_browsers
        ("Invalid browser name " +:+ name +:+
         ".  Options are: firefox, chrome, internet explorer, safari") = true)
  /\ (resolve_mode env <> Local ->
      browser env tags proxy =
      Raise (BrowserConfigError ("Unsuppported browser: " +:+ name))).
Proof.
  intros Hname Hget. split.
  - intros Hmode. split; [|apply (local_message_enumerates name)].
    rewrite browser_by_mode, Hmode, <- Hname.
    unfold _local_browser_class. by rewrite Hget.
  - intros Hmode.
    destruct (remote_modes env tags proxy Hmode) as (s & h & p & Hs & _ & _ & ->).
    rewrite Hs in Hname. subst s.
    unfold Dict.has. by rewrite Hget.
Qed.

Lemma unsupported_browser_rejected_witness :
  browser remote_opera_env None None =
  Raise (BrowserConfigError ("Unsuppported browser: " +:+ "opera")).
Proof.
  refine (proj2 (unsupported_browser_rejected remote_opera_env None None "opera"
                   _ _) _).
  - reflexivity.
  - reflexivity.
  - vm_compute. discriminate.
Defined.

(** C6, as stated, fails in remote mode: the message raised for [opera]
    names none of the supported identifiers. *)
Lemma remote_message_does_not_enumerate :
  resolve_mode remote_opera_env = RemoteMode
  /\ browser remote_opera_env None None
     = Raise (BrowserConfigError "Unsuppported browser: opera")
  /\ enumerates_browsers "Unsuppported browser: opera" = false
  /\ forall name, name ∈ Dict.keys BROWSERS ->
                  contains name "Unsuppported browser: opera" = false.
Proof.
  split_and!; try by vm_compute.
  intros name Hn%list_elem_of_In. simpl in Hn.
  repeat (destruct Hn as [<- | Hn]; [by vm_compute|]). done.
Qed.

(** C7.  For a supported browser (and keyword arguments whose
    [desired_capabilities], when there, is a mapping) [_proxy_kwargs]
    returns.  For [firefox] without a [desired_capabilities] argument the
    proxy block goes under [capabilities], and no [desired_capabilities]
    argument appears.  For every other supported browser, and for [firefox]
    when [desired_capabilities] is there, the block goes under
    [desired_capabilities] and the [capabilities] argument is left as it
    was. *)
Theorem proxy_placement name p kwargs :
  is_Some (Dict.get BROWSERS name) ->
  (forall v, Dict.get kwargs "desired_capabilities" = Some v ->
             exists c, v = PDict c) ->
  exists ty kwargs',
    Dict.get proxy_type name = Some ty
    /\ _proxy_kwargs name p kwargs = Ok kwargs'
    /\ (name = "firefox" /\ Dict.get kwargs "desired_capabilities" = None ->
        Dict.get kwargs' "capabilities" = Some (PDict (proxy_entry p ty))
        /\ Dict.get kwargs' "desired_capabilities" = None)
    /\ (name <> "firefox" \/ is_Some (Dict.get kwargs "desired_capabilities") ->
        (exists caps,
            Dict.get kwargs' "desired_capabilities" = Some (PDict caps)
            /\ Dict.get caps "proxy" = Some (PDict (proxy_block p ty)))
        /\ Dict.get kwargs' "capabilities" = Dict.get kwargs "capabilities").
Proof.
  intros Hsup Hdict.
  destruct (proj2 (proxy_type_supported name) Hsup) as [ty Hty].
  exists ty. rewrite proxy_kwargs_eq, Hty. unfold Dict.has.
  destruct (Dict.get kwargs "desired_capabilities") as [v|] eqn:Edc.
  - destruct (Hdict v eq_refl) as [c ->]. rewrite andb_false_r.
    eexists. split_and!; [done | done | by intros [_ [=]] |].
    intros _. split.
    + eexists. split; [apply get_set_eq|]. apply get_set_eq.
    + by apply get_set_ne.
  - destruct (String.eqb_spec name "firefox") as [->|Hne]; cbn [andb negb].
    + eexists. split_and!; [done | done | | by intros [? | [? [=]]]].
      intros _. split; [apply get_set_eq|].
      by rewrite get_set_ne.
    + eexists. split_and!; [done | done | by intros [? _] |].
      intros _. split.
      * eexists. split; [apply get_set_eq | reflexivity].
      * by apply get_set_ne.
Qed.

Lemma proxy_placement_witness :
  exists ty kwargs',
    Dict.get proxy_type "firefox" = Some ty
    /\ _proxy_kwargs "firefox" {| host := "localhost:8080" |} [] = Ok kwargs'
    /\ ("firefox" = "firefox"
        /\ Dict.get ([] : Dict.t pyval) "desired_capabilities" = None ->
        Dict.get kwargs' "capabilities"
        = Some (PDict (proxy_entry {| host := "localhost:8080" |} ty))
        /\ Dict.get kwargs' "desired_capabilities" = None)
    /\ ("firefox" <> "firefox"
        \/ is_Some (Dict.get ([] : Dict.t pyval) "desired_capabilities") ->
        (exists caps,
            Dict.get kwargs' "desired_capabilities" = Some (PDict caps)
            /\ Dict.get caps "proxy"
               = Some (PDict (proxy_block {| host := "localhost:8080" |} ty)))
        /\ Dict.get kwargs' "capabilities"
           = Dict.get ([] : Dict.t pyval) "capabilities").
Proof.
  apply (proxy_placement "firefox" {| host := "localhost:8080" |} []).
  - vm_compute. by eexists.
  - intros v. vm_compute. discriminate.
Defined.

Lemma jenkins_keys env job k :
  jenkins env = Ok job -> k ∈ sauce_keys -> Dict.get job k = None.
Proof.
  unfold jenkins. intros Hjob Hk%list_elem_of_In. simpl in Hk.
  destruct (env !! "JOB_NAME"), (env !! "BUILD_NUMBER");
    simplify_eq; repeat (destruct Hk as [<- | Hk]; [done|]); done.
Qed.

(** C8.  A capability document returned by [_capabilities_dict] has no
    repeated key and exactly one [browserName] entry, holds the base block
    (the browser name, the four recording and capture flags, [max-duration]
    600, [public] set to [public restricted], the tag list), and holds
    [platform], [version], [username] and [accessKey] exactly when all the
    SauceLabs variables are set; its keys are the base keys, then the
    SauceLabs keys in that mode, then the Jenkins keys when [JOB_NAME] was
    read.  A session returned in remote mode has none of the four SauceLabs
    keys in its capabilities. *)
Theorem capabilities_shape env envs tags caps :
  _capabilities_dict env envs tags = Ok caps ->
  NoDup (Dict.keys caps)
  /\ length (filter (fun k => k = "browserName") (Dict.keys caps)) = 1
  /\ Dict.keys caps
     = base_keys
       ++ (if _use_remote_browser env SAUCE_ENV_VARS then sauce_keys else [])
       ++ (if Dict.has envs "JOB_NAME" then job_keys else [])
  /\ Dict.get caps "browserName" = Some (item envs "SELENIUM_BROWSER")
  /\ Dict.get caps "video-upload-on-pass" = Some (PBool false)
  /\ Dict.get caps "sauce-advisor" = Some (PBool false)
  /\ Dict.get caps "capture-html" = Some (PBool true)
  /\ Dict.get caps "record-screenshots" = Some (PBool true)
  /\ Dict.get caps "max-duration" = Some (PInt 600)
  /\ Dict.get caps "public" = Some (PStr "public restricted")
  /\ Dict.get caps "tags" = Some (PList tags)
  /\ (forall k, k ∈ sauce_keys ->
      (is_Some (Dict.get caps k) <-> resolve_mode env = ManagedCloud))
  /\ (forall otags proxy inst,
      resolve_mode env = RemoteMode ->
      browser env otags proxy = Ok inst ->
      exists rcaps,
        Dict.get (browser_kwargs inst) "desired_capabilities"
        = Some (PDict rcaps)
        /\ forall k, k ∈ sauce_keys -> Dict.get rcaps k = None).
Proof.
  intros [_ ->]%capabilities_dict_inv.
  unfold caps_layout, resolve_mode, sauce_caps, job_caps.
  split_and!; try reflexivity.
  - apply (bool_decide_unpack _).
    by destruct (_use_remote_browser env SAUCE_ENV_VARS),
         (Dict.has envs "JOB_NAME"); vm_compute.
  - by destruct (_use_remote_browser env SAUCE_ENV_VARS),
         (Dict.has envs "JOB_NAME").
  - by destruct (_use_remote_browser env SAUCE_ENV_VARS),
         (Dict.has envs "JOB_NAME").
  - intros k Hk%list_elem_of_In. simpl in Hk.
    destruct (_use_remote_browser env SAUCE_ENV_VARS).
    + split; [done | intros _].
      repeat (destruct Hk as [<- | Hk]; [by eexists|]). done.
    + split.
      * intros [v Hv]. exfalso.
        destruct (Dict.has envs "JOB_NAME");
          repeat (destruct Hk as [<- | Hk]; [discriminate|]); done.
      * by destruct (_use_remote_browser env REMOTE_ENV_VARS).
  - intros otags proxy inst Hmode. change (resolve_mode env = RemoteMode) in Hmode.
    assert (Hnl : resolve_mode env <> Local) by congruence.
    destruct (remote_modes env otags proxy Hnl) as (s & h & p & _ & _ & _ & ->).
    assert (Hblock : sauce_block env = []).
    { unfold sauce_block. unfold resolve_mode in Hmode.
      by destruct (_use_remote_browser env SAUCE_ENV_VARS). }
    rewrite Hblock.
    destruct (Dict.has BROWSERS s); [|done].
    destruct (jenkins env) as [job|] eqn:Ejob; [|done]. cbn [bind].
    intros (_ & _ & _ & caps' & Hdc & Hframe & _)%instantiate_remote.
    exists caps'. split; [done|]. intros k Hk.
    rewrite Hframe.
    + assert (Hj := jenkins_keys env job k Ejob Hk).
      apply list_elem_of_In in Hk. simpl in Hk.
      repeat (destruct Hk as [<- | Hk]; [exact Hj|]). done.
    + apply list_elem_of_In in Hk. simpl in Hk. intros ->.
      repeat (destruct Hk as [? | Hk]; [discriminate|]). done.
Qed.

Lemma capabilities_shape_witness :
  Dict.get (base_caps (PStr "chrome") ["smoke"]) "max-duration"
  = Some (PInt 600).
Proof.
  refine (proj1 (proj2 (proj2 (proj2 (proj2 (proj2 (proj2 (proj2 (proj2
    (capabilities_shape remote_chrome_env
       [("SELENIUM_BROWSER", Some "chrome"); ("SELENIUM_HOST", Some "localhost");
        ("SELENIUM_PORT", Some "4444")]
       ["smoke"] (base_caps (PStr "chrome") ["smoke"]) _)))))))))).
  vm_compute. reflexivity.
Defined.

Lemma supported_proxy_type name :
  Dict.has BROWSERS name = true -> exists ty, Dict.get proxy_type name = Some ty.
Proof.
  rewrite has_get. intros H%bool_decide_eq_true_1.
  by apply proxy_type_supported.
Qed.

Lemma jenkins_raise env e :
  jenkins env = Raise e -> exists msg, e = BrowserConfigError msg.
Proof.
  unfold jenkins.
  destruct (env !! "JOB_NAME"), (env !! "BUILD_NUMBER"); intros [=]; by eexists.
Qed.

(** C9.  [proxy_type] and [BROWSERS] have the same keys, so for a supported
    browser name the lookup [proxy_type[browser_name]] succeeds and
    [_proxy_kwargs] raises no [KeyError]; [browser], which reaches the
    proxy step only after the name was validated, never raises one. *)
Theorem proxy_type_lookup_total :
  (forall name, name ∈ Dict.keys proxy_type <-> name ∈ Dict.keys BROWSERS)
  /\ (forall name,
      is_Some (Dict.get proxy_type name) <-> is_Some (Dict.get BROWSERS name))
  /\ (forall name p kwargs key,
      is_Some (Dict.get BROWSERS name) ->
      _proxy_kwargs name p kwargs <> Raise (KeyError key))
  /\ (forall env tags proxy key, browser env tags proxy <> Raise (KeyError key)).
Proof.
  split_and!.
  - intros name. unfold Dict.keys, proxy_type, BROWSERS. simpl.
    rewrite !elem_of_cons, !elem_of_nil. tauto.
  - apply proxy_type_supported.
  - intros name p kwargs key [ty Hty]%proxy_type_supported.
    rewrite proxy_kwargs_eq, Hty.
    destruct (_ && _); [done|].
    destruct (Dict.get kwargs "desired_capabilities") as [[]|]; done.
  - intros env tags proxy key.
    destruct (decide (resolve_mode env = Local)) as [Hmode|Hmode].
    + rewrite browser_by_mode, Hmode.
      set (name := match env !! "SELENIUM_BROWSER" with
                   | Some s => s | None => "firefox" end).
      destruct (Dict.get BROWSERS name) as [cls|] eqn:Ecls.
      * by destruct (local_session env proxy name cls eq_refl Ecls) as (ty & _ & ->).
      * unfold _local_browser_class. by rewrite Ecls.
    + destruct (remote_modes env tags proxy Hmode) as (s & h & p & Hs & _ & _ & ->).
      destruct (Dict.has BROWSERS s) eqn:Hsup; [|done].
      destruct (jenkins env) as [job|e] eqn:Ejob.
      2:{ apply jenkins_raise in Ejob as [msg ->]. done. }
      destruct (supported_proxy_type s Hsup) as [ty Hty].
      unfold instantiate. cbn [bind]. destruct proxy as [px|]; [|done].
      rewrite Hs, proxy_kwargs_eq, Hty.
      by destruct (String.eqb s "firefox").
Qed.

Lemma proxy_type_lookup_total_witness :
  is_Some (Dict.get BROWSERS "safari")
  /\ _proxy_kwargs "safari" {| host := "localhost:8080" |} []
     <> Raise (KeyError "safari").
Proof.
  assert (Hsup : is_Some (Dict.get BROWSERS "safari"))
    by (vm_compute; by eexists).
  split; [exact Hsup|].
  exact (proj1 (proj2 (proj2 proxy_type_lookup_total))
           "safari" {| host := "localhost:8080" |} [] "safari" Hsup).
Defined.

(** What a branch of [browser] returns: a validated browser name, and for
    the remote branch its two keyword arguments. *)
Lemma required_envs_supported env vars envs :
  NoDup vars -> "SELENIUM_BROWSER" ∈ vars ->
  _required_envs env vars = Ok envs ->
  exists s, env !! "SELENIUM_BROWSER" = Some s /\ Dict.has BROWSERS s = true.
Proof.
  intros Hnd Hb. rewrite required_envs_eq by done.
  destruct (filter _ vars); [|done].
  destruct (env !! "SELENIUM_BROWSER") as [s|]; [|done].
  destruct (Dict.has BROWSERS s) eqn:Hsup; [|done]. intros _. by exists s.
Qed.

Lemma remote_class_kwargs env vars tags cls args kwargs :
  NoDup vars -> "SELENIUM_BROWSER" ∈ vars ->
  _remote_browser_class env vars tags = Ok (cls, args, kwargs) ->
  (exists url caps,
      kwargs = [("command_executor", PStr url);
                ("desired_capabilities", PDict caps)])
  /\ exists s, env !! "SELENIUM_BROWSER" = Some s /\ Dict.has BROWSERS s = true.
Proof.
  intros Hnd Hb. unfold _remote_browser_class.
  destruct (_required_envs env vars) as [envs|] eqn:Ereq; [|done]. cbn [bind].
  destruct (_optional_envs env) as [opt|]; [|done]. cbn [bind].
  destruct (_capabilities_dict env _ _) as [caps|]; [|done]. cbn [bind].
  destruct (if Dict.has caps "accessKey" then _ else _); [|done]. cbn [bind].
  destruct (getitem _ "SELENIUM_HOST"); [|done]. cbn [bind].
  destruct (getitem _ "SELENIUM_PORT"); [|done]. cbn [bind].
  intros [= _ _ <-]. split; [by eexists _, _|].
  by apply (required_envs_supported env vars envs).
Qed.

Lemma branch_kwargs env tags cls args kwargs :
  match resolve_mode env with
  | ManagedCloud => _remote_browser_class env SAUCE_ENV_VARS tags
  | RemoteMode => _remote_browser_class env REMOTE_ENV_VARS tags
  | Local => _local_browser_class (selected_browser env)
  end = Ok (cls, args, kwargs) ->
  Dict.get kwargs "capabilities" = None
  /\ forall p, exists kwargs',
        _proxy_kwargs (selected_browser env) p kwargs = Ok kwargs'.
Proof.
  assert (Hremote : forall vars,
             NoDup vars -> "SELENIUM_BROWSER" ∈ vars ->
             _remote_browser_class env vars tags = Ok (cls, args, kwargs) ->
             Dict.get kwargs "capabilities" = None
             /\ forall p, exists kwargs',
                   _proxy_kwargs (selected_browser env) p kwargs = Ok kwargs').
  { intros vars Hnd Hb [(url & caps & ->) (s & Hs & Hsup)]%remote_class_kwargs;
      [|done|done].
    split; [done|]. intros p.
    destruct (supported_proxy_type s Hsup) as [ty Hty].
    unfold selected_browser. rewrite Hs, proxy_kwargs_eq, Hty.
    destruct (String.eqb s "firefox"); by eexists. }
  destruct (resolve_mode env).
  - unfold _local_browser_class.
    destruct (Dict.get BROWSERS (selected_browser env)) as [c|] eqn:Ecls; [|done].
    intros [= _ _ <-]. split; [done|]. intros p.
    destruct (proj2 (proxy_type_supported (selected_browser env)))
      as [ty Hty]; [by eexists|].
    rewrite proxy_kwargs_eq, Hty.
    destruct (String.eqb (selected_browser env) "firefox"); by eexists.
  - apply Hremote; [apply NoDup_REMOTE | in_list].
  - apply Hremote; [apply NoDup_SAUCE | in_list].
Qed.

(** The frame of [_proxy_kwargs] on arguments without a [capabilities]
    entry. *)
Lemma proxy_kwargs_keeps name p kwargs kwargs' :
  Dict.get kwargs "capabilities" = None ->
  _proxy_kwargs name p kwargs = Ok kwargs' ->
  (forall k v, Dict.get kwargs k = Some v -> k <> "desired_capabilities" ->
               Dict.get kwargs' k = Some v)
  /\ (forall caps,
      Dict.get kwargs "desired_capabilities" = Some (PDict caps) ->
      exists caps',
        Dict.get kwargs' "desired_capabilities" = Some (PDict caps')
        /\ (forall c, c <> "proxy" -> Dict.get caps' c = Dict.get caps c)
        /\ Dict.keys caps'
           = if Dict.has caps "proxy" then Dict.keys caps
             else Dict.keys caps ++ ["proxy"])
  /\ Dict.keys kwargs'
     = Dict.keys kwargs
       ++ (if Dict.has kwargs "desired_capabilities" then []
           else if String.eqb name "firefox" then ["capabilities"]
                else ["desired_capabilities"]).
Proof.
  intros Hnc. rewrite proxy_kwargs_eq.
  destruct (Dict.get proxy_type name) as [ty|]; [|done].
  assert (Hhc : Dict.has kwargs "capabilities" = false)
    by (unfold Dict.has; by rewrite Hnc).
  destruct (Dict.get kwargs "desired_capabilities") as [v|] eqn:Edc.
  - assert (Hh : Dict.has kwargs "desired_capabilities" = true)
      by (unfold Dict.has; by rewrite Edc).
    rewrite Hh, andb_false_r. destruct v as [| | | | |caps]; try done.
    intros [= <-]. split_and!.
    + intros k v Hk Hne. by rewrite get_set_ne.
    + intros caps0 [= <-]. eexists.
      split_and!; [apply get_set_eq | | apply keys_set].
      intros c Hc. by apply get_set_ne.
    + by rewrite keys_set, Hh, app_nil_r.
  - assert (Hh : Dict.has kwargs "desired_capabilities" = false)
      by (unfold Dict.has; by rewrite Edc).
    rewrite Hh.
    destruct (String.eqb name "firefox"); cbn [andb negb]; intros [= <-].
    + split_and!; [ | done | by rewrite keys_set, Hhc].
      intros k v Hk _. rewrite get_set_ne; [done|]. intros <-. congruence.
    + split_and!; [ | done | by rewrite keys_set, Hh].
      intros k v Hk Hne. by rewrite get_set_ne.
Qed.

(** C10.  Proxy augmentation adds the one key [proxy] and keeps the rest.
    On keyword arguments without a [capabilities] entry, which are the only
    ones the module builds ([{}] for a local browser, [command_executor]
    and [desired_capabilities] for a remote one), every entry that was
    there other than [desired_capabilities] has the same value afterwards,
    every key of the [desired_capabilities] mapping other than [proxy] has
    the same value afterwards, and that mapping gains no key but [proxy].
    Through [browser]: a call that returns a session without a proxy
    returns, with a proxy, a session of the same constructor and positional
    arguments whose keyword arguments keep the endpoint and every
    capability but [proxy]. *)
Theorem proxy_augmentation_frame name p kwargs kwargs' :
  (Dict.get kwargs "capabilities" = None ->
   _proxy_kwargs name p kwargs = Ok kwargs' ->
   (forall k v, Dict.get kwargs k = Some v -> k <> "desired_capabilities" ->
                Dict.get kwargs' k = Some v)
   /\ (forall caps,
       Dict.get kwargs "desired_capabilities" = Some (PDict caps) ->
       exists caps',
         Dict.get kwargs' "desired_capabilities" = Some (PDict caps')
         /\ (forall c, c <> "proxy" -> Dict.get caps' c = Dict.get caps c)
         /\ Dict.keys caps'
            = if Dict.has caps "proxy" then Dict.keys caps
              else Dict.keys caps ++ ["proxy"])
   /\ Dict.keys kwargs'
      = Dict.keys kwargs
        ++ (if Dict.has kwargs "desired_capabilities" then []
            else if String.eqb name "firefox" then ["capabilities"]
                 else ["desired_capabilities"]))
  /\ (forall env tags inst,
      browser env tags None = Ok inst ->
      Dict.get (browser_kwargs inst) "capabilities" = None
      /\ exists inst',
          browser env tags (Some p) = Ok inst'
          /\ browser_class inst' = browser_class inst
          /\ browser_args inst' = browser_args inst
          /\ (forall k v, Dict.get (browser_kwargs inst) k = Some v ->
                          k <> "desired_capabilities" ->
                          Dict.get (browser_kwargs inst') k = Some v)
          /\ (forall caps,
              Dict.get (browser_kwargs inst) "desired_capabilities"
              = Some (PDict caps) ->
              exists caps',
                Dict.get (browser_kwargs inst') "desired_capabilities"
                = Some (PDict caps')
                /\ forall c, c <> "proxy" ->
                             Dict.get caps' c = Dict.get caps c)).
Proof.
  split; [apply proxy_kwargs_keeps|].
  intros env tags inst. rewrite !browser_by_mode.
  fold (selected_browser env).
  destruct (match resolve_mode env with
            | Local => _ | RemoteMode => _ | ManagedCloud => _ end)
    as [[[cls args] kw]|] eqn:Ebranch; [|done].
  destruct (branch_kwargs env tags cls args kw Ebranch) as [Hnc Hret].
  destruct (Hret p) as [kw' Epx].
  unfold instantiate. fold (selected_browser env). cbn [bind].
  intros [= <-]. cbn. split; [done|]. rewrite Epx. cbn [bind].
  destruct (proxy_kwargs_keeps _ p kw kw' Hnc Epx) as (Hkeep & Hcaps & _).
  eexists. split; [reflexivity|]. cbn. split_and!; try done.
  intros caps Hdc. destruct (Hcaps caps Hdc) as (caps' & ? & ? & _).
  by exists caps'.
Qed.

Lemma proxy_augmentation_frame_witness :
  Dict.get
    (remote_kwargs "localhost" "4444"
       (base_caps (PStr "chrome") [] ++ proxy_entry {| host := "h:1" |} "AUTODETECT"))
    "command_executor"
  = Some (PStr "http://localhost:4444/wd/hub").
Proof.
  destruct (proj1 (proxy_augmentation_frame "chrome" {| host := "h:1" |}
                     (remote_kwargs "localhost" "4444" (base_caps (PStr "chrome") []))
                     (remote_kwargs "localhost" "4444"
                        (base_caps (PStr "chrome") []
                         ++ proxy_entry {| host := "h:1" |} "AUTODETECT"))))
    as (Hkeep & _).
  - vm_compute. reflexivity.
  - vm_compute. reflexivity.
  - apply (Hkeep "command_executor"); [vm_compute; reflexivity | discriminate].
Defined.

(** * Further properties of the module *)

Lemma get_app {V} (d e : Dict.t V) k :
  Dict.get (d ++ e) k =
  match Dict.get d k with Some v => Some v | None => Dict.get e k end.
Proof.
  induction d as [|[k' v'] d IH]; simpl; [done|].
  by destruct (String.eqb k' k).
Qed.

Lemma get_with_proxy proxy ty caps k :
  k <> "proxy" -> Dict.get (with_proxy proxy ty caps) k = Dict.get caps k.
Proof.
  intros Hk. destruct proxy as [px|]; [|done]. by apply get_set_ne.
Qed.

Lemma has_is_Some {V} (d : Dict.t V) k :
  Dict.has d k = true <-> is_Some (Dict.get d k).
Proof.
  rewrite has_get. split.
  - by intros H%bool_decide_eq_true_1.
  - by intros H; apply bool_decide_eq_true_2.
Qed.

Lemma jenkins_ok_iff env :
  (exists job, jenkins env = Ok job) <->
  (is_Some (env !! "JOB_NAME") <-> is_Some (env !! "BUILD_NUMBER")).
Proof.
  unfold jenkins.
  destruct (env !! "JOB_NAME") as [j|], (env !! "BUILD_NUMBER") as [b|].
  - split; [done | by eexists].
  - split; [by intros [? ?] | intros [H _]].
    destruct H as [? ?]; [by eexists | done].
  - split; [by intros [? ?] | intros [_ H]].
    destruct H as [? ?]; [by eexists | done].
  - split; [|by eexists]. intros _. split; by intros [? ?].
Qed.

(** The proxy step on a remote session, closed form. *)
Lemma instantiate_remote_eq env proxy s ty h p caps :
  env !! "SELENIUM_BROWSER" = Some s ->
  Dict.get proxy_type s = Some ty ->
  instantiate env proxy (Ok (Remote, [], remote_kwargs h p caps)) =
  Ok (Instantiate Remote [] (remote_kwargs h p (with_proxy proxy ty caps))).
Proof.
  intros Hs Hty. unfold instantiate. cbn [bind].
  destruct proxy as [px|]; [|done].
  rewrite Hs, proxy_kwargs_eq, Hty.
  by destruct (String.eqb s "firefox").
Qed.

(** What a session returned in a remote mode is made of. *)
Lemma remote_success env tags proxy inst :
  resolve_mode env <> Local ->
  browser env tags proxy = Ok inst ->
  exists s h p ty job,
    env !! "SELENIUM_BROWSER" = Some s
    /\ env !! "SELENIUM_HOST" = Some h
    /\ env !! "SELENIUM_PORT" = Some p
    /\ Dict.has BROWSERS s = true
    /\ Dict.get proxy_type s = Some ty
    /\ jenkins env = Ok job
    /\ inst = Instantiate Remote []
                (remote_kwargs h p
                   (with_proxy proxy ty
                      (base_caps (PStr s) (tags_or_empty tags)
                       ++ sauce_block env ++ job))).
Proof.
  intros Hmode.
  destruct (remote_modes env tags proxy Hmode) as (s & h & p & Hs & Hh & Hp & ->).
  destruct (Dict.has BROWSERS s) eqn:Hsup; [|done].
  destruct (jenkins env) as [job|] eqn:Ejob; [|done]. cbn [bind].
  destruct (supported_proxy_type s Hsup) as [ty Hty].
  rewrite (instantiate_remote_eq env proxy s ty) by done.
  intros [= <-]. by exists s, h, p, ty, job.
Qed.

Lemma remote_chrome_env_remote : resolve_mode remote_chrome_env <> Local.
Proof. vm_compute. discriminate. Qed.

Lemma sauce_job_env_managed : resolve_mode sauce_job_env = ManagedCloud.
Proof. by vm_compute. Qed.

(** X1.  A session returned in remote or SauceLabs mode is a call of
    [webdriver.Remote] with no positional argument and exactly the two
    keyword arguments [command_executor] and [desired_capabilities], and
    the endpoint is [http://HOST:PORT/wd/hub] with the values of
    [SELENIUM_HOST] and [SELENIUM_PORT] as they are. *)
Theorem remote_session_endpoint env tags proxy inst :
  resolve_mode env <> Local ->
  browser env tags proxy = Ok inst ->
  browser_class inst = Remote
  /\ browser_args inst = []
  /\ Dict.keys (browser_kwargs inst) = ["command_executor"; "desired_capabilities"]
  /\ exists h p,
      env !! "SELENIUM_HOST" = Some h
      /\ env !! "SELENIUM_PORT" = Some p
      /\ Dict.get (browser_kwargs inst) "command_executor"
         = Some (PStr ("http://" +:+ h +:+ ":" +:+ p +:+ "/wd/hub")).
Proof.
  intros Hmode Hres.
  destruct (remote_success env tags proxy inst Hmode Hres)
    as (s & h & p & ty & job & _ & Hh & Hp & _ & _ & _ & ->).
  split_and!; try done. by exists h, p.
Qed.

Lemma remote_session_endpoint_witness :
  browser_class
    (Instantiate Remote []
       (remote_kwargs "localhost" "4444" (base_caps (PStr "chrome") []))) = Remote
  /\ Dict.keys (remote_kwargs "localhost" "4444" (base_caps (PStr "chrome") []))
     = ["command_executor"; "desired_capabilities"].
Proof.
  destruct (remote_session_endpoint remote_chrome_env None None
              (Instantiate Remote []
                 (remote_kwargs "localhost" "4444" (base_caps (PStr "chrome") [])))
              remote_chrome_env_remote)
    as (Hcls & _ & Hkeys & _).
  - vm_compute. reflexivity.
  - split; [exact Hcls | exact Hkeys].
Defined.

Lemma get_base_other b tags k :
  k ∉ base_keys -> Dict.get (base_caps b tags) k = None.
Proof. intros Hk. by apply get_None_keys. Qed.

Lemma get_sauce_block_other env k :
  k ∉ sauce_keys -> Dict.get (sauce_block env) k = None.
Proof.
  intros Hk. apply get_None_keys. unfold sauce_block.
  destruct (_use_remote_browser env SAUCE_ENV_VARS); [exact Hk|].
  apply not_elem_of_nil.
Qed.

Ltac not_in_list :=
  let H := fresh in
  intros H%list_elem_of_In; simpl in H; intuition discriminate.

(** X2.  The Jenkins variables reach the capabilities as they are: a
    session returned in remote or SauceLabs mode has [build] and [name]
    set to the values of [BUILD_NUMBER] and [JOB_NAME] when the two are
    set, and has neither key when neither is set; no session is returned
    when only one is set. *)
Theorem jenkins_capabilities env tags proxy inst :
  resolve_mode env <> Local ->
  browser env tags proxy = Ok inst ->
  (is_Some (env !! "JOB_NAME") <-> is_Some (env !! "BUILD_NUMBER"))
  /\ exists caps,
      Dict.get (browser_kwargs inst) "desired_capabilities" = Some (PDict caps)
      /\ Dict.get caps "build" = PStr <$> env !! "BUILD_NUMBER"
      /\ Dict.get caps "name" = PStr <$> env !! "JOB_NAME".
Proof.
  intros Hmode Hres.
  destruct (remote_success env tags proxy inst Hmode Hres)
    as (s & h & p & ty & job & _ & _ & _ & _ & _ & Hjob & ->).
  split; [apply jenkins_ok_iff; by exists job|].
  eexists. split; [reflexivity|].
  rewrite !get_with_proxy by discriminate.
  rewrite !get_app, !get_base_other, !get_sauce_block_other by not_in_list.
  unfold jenkins in Hjob.
  destruct (env !! "JOB_NAME"), (env !! "BUILD_NUMBER"); by simplify_eq.
Qed.

Lemma jenkins_capabilities_witness :
  exists caps,
    Dict.get
      (remote_kwargs "localhost" "4445"
         (base_caps (PStr "firefox") [] ++ sauce_block sauce_job_env
          ++ [("build", PStr "7"); ("name", PStr "nightly")]))
      "desired_capabilities" = Some (PDict caps)
    /\ Dict.get caps "build" = PStr <$> sauce_job_env !! "BUILD_NUMBER"
    /\ Dict.get caps "name" = PStr <$> sauce_job_env !! "JOB_NAME".
Proof.
  refine (proj2 (jenkins_capabilities sauce_job_env None None
                   (Instantiate Remote []
                      (remote_kwargs "localhost" "4445"
                         (base_caps (PStr "firefox") []
                          ++ sauce_block sauce_job_env
                          ++ [("build", PStr "7"); ("name", PStr "nightly")])))
                   _ _)).
  - vm_compute. discriminate.
  - vm_compute. reflexivity.
Defined.

(** X3.  The values of the capabilities come from the environment as they
    are: in both remote modes [browserName] is the value of
    [SELENIUM_BROWSER]; in SauceLabs mode [platform], [version],
    [username] and [accessKey] are the values of [SELENIUM_PLATFORM],
    [SELENIUM_VERSION], [SAUCE_USER_NAME] and [SAUCE_API_KEY]. *)
Theorem capabilities_copy_environment env tags proxy inst :
  resolve_mode env <> Local ->
  browser env tags proxy = Ok inst ->
  exists caps,
    Dict.get (browser_kwargs inst) "desired_capabilities" = Some (PDict caps)
    /\ Dict.get caps "browserName" = PStr <$> env !! "SELENIUM_BROWSER"
    /\ (resolve_mode env = ManagedCloud ->
        Dict.get caps "platform" = PStr <$> env !! "SELENIUM_PLATFORM"
        /\ Dict.get caps "version" = PStr <$> env !! "SELENIUM_VERSION"
        /\ Dict.get caps "username" = PStr <$> env !! "SAUCE_USER_NAME"
        /\ Dict.get caps "accessKey" = PStr <$> env !! "SAUCE_API_KEY").
Proof.
  intros Hmode Hres.
  destruct (remote_success env tags proxy inst Hmode Hres)
    as (s & h & p & ty & job & Hs & _ & _ & _ & _ & _ & ->).
  eexists. split; [reflexivity|]. split.
  - rewrite get_with_proxy by discriminate. by rewrite Hs.
  - intros Hmc.
    assert (Hall := proj1 (proj1 (resolve_mode_cases env)) Hmc).
    assert (Hsauce : _use_remote_browser env SAUCE_ENV_VARS = true)
      by by apply use_remote_spec.
    destruct (present_in env _ "SELENIUM_VERSION" Hall) as [ver Hver]; [in_list|].
    destruct (present_in env _ "SELENIUM_PLATFORM" Hall) as [plat Hplat];
      [in_list|].
    destruct (present_in env _ "SAUCE_USER_NAME" Hall) as [user Huser];
      [in_list|].
    destruct (present_in env _ "SAUCE_API_KEY" Hall) as [key Hkey]; [in_list|].
    rewrite !get_with_proxy by discriminate.
    unfold sauce_block. rewrite Hsauce, Hver, Hplat, Huser, Hkey.
    by split_and!.
Qed.

Lemma capabilities_copy_environment_witness :
  exists caps,
    Dict.get
      (remote_kwargs "localhost" "4444" (base_caps (PStr "chrome") []))
      "desired_capabilities" = Some (PDict caps)
    /\ Dict.get caps "browserName" = PStr <$> remote_chrome_env !! "SELENIUM_BROWSER".
Proof.
  destruct (capabilities_copy_environment remote_chrome_env None None
              (Instantiate Remote []
                 (remote_kwargs "localhost" "4444" (base_caps (PStr "chrome") [])))
              remote_chrome_env_remote)
    as (caps & Hdc & Hname & _).
  - vm_compute. reflexivity.
  - exists caps. split; [exact Hdc | exact Hname].
Defined.

(** Every call of [browser] ends as [config_error] says, whatever the tags
    and the proxy. *)
Lemma browser_outcome env tags proxy :
  match config_error env with
  | Some msg => browser env tags proxy = Raise (BrowserConfigError msg)
  | None => exists inst, browser env tags proxy = Ok inst
  end.
Proof.
  unfold config_error.
  destruct (decide (resolve_mode env = Local)) as [Hmode|Hmode].
  - rewrite Hmode, browser_by_mode, Hmode. fold (selected_browser env).
    unfold Dict.has.
    destruct (Dict.get BROWSERS (selected_browser env)) as [cls|] eqn:Ecls.
    + destruct (local_session env proxy _ cls eq_refl Ecls) as (ty & _ & Heq).
      fold (selected_browser env) in Heq. rewrite Heq. by eexists.
    + unfold _local_browser_class. by rewrite Ecls.
  - destruct (remote_modes env tags proxy Hmode) as (s & h & p & Hs & _ & _ & ->).
    assert (Hname : selected_browser env = s) by (unfold selected_browser; by rewrite Hs).
    rewrite Hname.
    assert (Hcase : match resolve_mode env with
                    | Local => False | _ => True end)
      by by destruct (resolve_mode env).
    destruct (resolve_mode env); [done | |];
      (destruct (Dict.has BROWSERS s) eqn:Hsup; [|done];
       destruct (jenkins env) as [job|e] eqn:Ejob;
       [ destruct (supported_proxy_type s Hsup) as [ty Hty]; cbn [bind];
         rewrite (instantiate_remote_eq env proxy s ty) by done; by eexists
       | by apply jenkins_raise in Ejob as [msg ->] ]).
Qed.

Lemma config_error_None env :
  config_error env = None <->
  is_Some (Dict.get BROWSERS (selected_browser env))
  /\ (resolve_mode env <> Local ->
      (is_Some (env !! "JOB_NAME") <-> is_Some (env !! "BUILD_NUMBER"))).
Proof.
  unfold config_error. rewrite <- has_is_Some, <- jenkins_ok_iff.
  destruct (Dict.has BROWSERS (selected_browser env)).
  - destruct (resolve_mode env).
    + split; [by intros _; split | done].
    + destruct (jenkins env) as [job|e] eqn:Ejob.
      * split; [intros _; split; [done | by eexists] | done].
      * apply jenkins_raise in Ejob as [msg ->].
        split; [done | intros [_ H]]. by destruct H as [? ?].
    + destruct (jenkins env) as [job|e] eqn:Ejob.
      * split; [intros _; split; [done | by eexists] | done].
      * apply jenkins_raise in Ejob as [msg ->].
        split; [done | intros [_ H]]. by destruct H as [? ?].
  - destruct (resolve_mode env); (split; [done | by intros [? _]]).
Qed.

(** X4.  [browser] returns a session exactly when the browser name
    ([SELENIUM_BROWSER], or [firefox] when it is unset) is a supported one
    and, in the remote modes, [JOB_NAME] and [BUILD_NUMBER] are both set or
    both unset; the tags and the proxy have no part in it. *)
Theorem browser_returns_iff env tags proxy :
  (exists inst, browser env tags proxy = Ok inst) <->
  is_Some (Dict.get BROWSERS (selected_browser env))
  /\ (resolve_mode env <> Local ->
      (is_Some (env !! "JOB_NAME") <-> is_Some (env !! "BUILD_NUMBER"))).
Proof.
  rewrite <- config_error_None.
  assert (H := browser_outcome env tags proxy).
  destruct (config_error env) as [msg|].
  - rewrite H. split; [by intros [? ?] | done].
  - split; [done | by intros _].
Qed.

(** X5.  Whatever [browser] raises is a [BrowserConfigError], with one of
    four messages: the invalid-name message of the local branch, the
    unsupported-browser message of the remote branches, or one of the two
    missing-Jenkins-variable messages.  The message of [_required_envs]
    about variables that must be set is never raised by [browser], which
    calls it only when they all are. *)
Theorem browser_raises_only_config_errors env tags proxy e :
  browser env tags proxy = Raise e ->
  exists msg,
    e = BrowserConfigError msg
    /\ ((resolve_mode env = Local
         /\ msg = "Invalid browser name " +:+ selected_browser env +:+
                  ".  Options are: firefox, chrome, internet explorer, safari")
        \/ (resolve_mode env <> Local
            /\ (msg = "Unsuppported browser: " +:+ selected_browser env
                \/ msg = "Missing BUILD_NUMBER environment var"
                \/ msg = "Missing JOB_NAME environment var"))).
Proof.
  intros Hres. assert (H := browser_outcome env tags proxy).
  unfold config_error in H.
  destruct (resolve_mode env) eqn:Hmode.
  - destruct (Dict.has BROWSERS (selected_browser env)).
    + destruct H as [inst H]. congruence.
    + rewrite H in Hres. injection Hres as <-. eexists. split; [done|]. by left.
  - destruct (Dict.has BROWSERS (selected_browser env)).
    + unfold jenkins in H.
      destruct (env !! "JOB_NAME"), (env !! "BUILD_NUMBER");
        lazymatch type of H with
        | ex _ => destruct H as [inst H]; congruence
        | _ => rewrite H in Hres; injection Hres as <-;
               eexists; (split; [done|]); right; (split; [done|]); auto
        end.
    + rewrite H in Hres. injection Hres as <-.
      eexists. split; [done|]. right. split; [done|]. by left.
  - destruct (Dict.has BROWSERS (selected_browser env)).
    + unfold jenkins in H.
      destruct (env !! "JOB_NAME"), (env !! "BUILD_NUMBER");
        lazymatch type of H with
        | ex _ => destruct H as [inst H]; congruence
        | _ => rewrite H in Hres; injection Hres as <-;
               eexists; (split; [done|]); right; (split; [done|]); auto
        end.
    + rewrite H in Hres. injection Hres as <-.
      eexists. split; [done|]. right. split; [done|]. by left.
Qed.

Lemma browser_raises_only_config_errors_witness :
  exists msg,
    BrowserConfigError "Missing BUILD_NUMBER environment var"
    = BrowserConfigError msg
    /\ ((resolve_mode remote_job_only_env = Local
         /\ msg = "Invalid browser name " +:+ selected_browser remote_job_only_env +:+
                  ".  Options are: firefox, chrome, internet explorer, safari")
        \/ (resolve_mode remote_job_only_env <> Local
            /\ (msg = "Unsuppported browser: " +:+ selected_browser remote_job_only_env
                \/ msg = "Missing BUILD_NUMBER environment var"
                \/ msg = "Missing JOB_NAME environment var"))).
Proof.
  apply (browser_raises_only_config_errors remote_job_only_env
           (Some ["smoke"]) (Some {| host := "localhost:8080" |})).
  vm_compute. reflexivity.
Defined.

(** X6.  Whether [browser] raises, and what, depends on the environment
    alone: two calls in the same environment raise the same error or both
    return, whatever their tags and proxies. *)
Theorem errors_independent_of_arguments env tags proxy tags' proxy' e :
  browser env tags proxy = Raise e <-> browser env tags' proxy' = Raise e.
Proof.
  assert (H := browser_outcome env tags proxy).
  assert (H' := browser_outcome env tags' proxy').
  destruct (config_error env) as [msg|].
  - by rewrite H, H'.
  - destruct H as [inst ->], H' as [inst' ->]. done.
Qed.

Ltac policy_case :=
  split; split; (let H := fresh in
                 intros H; try discriminate H;
                 try (destruct H; discriminate); auto).

Lemma proxy_type_policy name ty :
  Dict.get proxy_type name = Some ty ->
  (ty = "MANUAL" <-> name = "firefox" \/ name = "internet explorer")
  /\ (ty = "AUTODETECT" <-> name = "chrome" \/ name = "safari").
Proof.
  unfold proxy_type. cbn [Dict.get].
  destruct (String.eqb_spec "firefox" name) as [<-|Hf].
  { intros [= <-]. policy_case. }
  destruct (String.eqb_spec "internet explorer" name) as [<-|Hi].
  { intros [= <-]. policy_case. }
  destruct (String.eqb_spec "chrome" name) as [<-|Hc].
  { intros [= <-]. policy_case. }
  destruct (String.eqb_spec "safari" name) as [<-|Hs]; [|discriminate].
  intros [= <-]. policy_case.
Qed.

(** X7.  Where a requested proxy ends up in the session [browser] returns.
    For a local Firefox it is the only keyword argument, under
    [capabilities]; for any other local browser it is the only keyword
    argument, under [desired_capabilities]; in the remote modes it is the
    [proxy] capability of [desired_capabilities], also for Firefox, and no
    [capabilities] argument is passed.  Its type is [MANUAL] for firefox
    and internet explorer and [AUTODETECT] for chrome and safari. *)
Theorem browser_proxy_placement env tags px inst :
  browser env tags (Some px) = Ok inst ->
  exists ty,
    Dict.get proxy_type (selected_browser env) = Some ty
    /\ (ty = "MANUAL" <->
        selected_browser env = "firefox"
        \/ selected_browser env = "internet explorer")
    /\ (ty = "AUTODETECT" <->
        selected_browser env = "chrome" \/ selected_browser env = "safari")
    /\ (resolve_mode env = Local -> selected_browser env = "firefox" ->
        browser_kwargs inst
        = [("capabilities", PDict [("proxy", PDict (proxy_block px ty))])])
    /\ (resolve_mode env = Local -> selected_browser env <> "firefox" ->
        browser_kwargs inst
        = [("desired_capabilities",
            PDict [("proxy", PDict (proxy_block px ty))])])
    /\ (resolve_mode env <> Local ->
        Dict.get (browser_kwargs inst) "capabilities" = None
        /\ exists caps,
            Dict.get (browser_kwargs inst) "desired_capabilities"
            = Some (PDict caps)
            /\ Dict.get caps "proxy" = Some (PDict (proxy_block px ty))).
Proof.
  intros Hres.
  destruct (decide (resolve_mode env = Local)) as [Hmode|Hmode].
  - rewrite browser_by_mode, Hmode in Hres. fold (selected_browser env) in Hres.
    destruct (Dict.get BROWSERS (selected_browser env)) as [cls|] eqn:Ecls.
    2:{ unfold _local_browser_class in Hres. by rewrite Ecls in Hres. }
    destruct (local_session env (Some px) _ cls eq_refl Ecls) as (ty & Hty & Heq).
    fold (selected_browser env) in Heq, Hty. rewrite Heq in Hres.
    injection Hres as <-. exists ty.
    destruct (proxy_type_policy _ ty Hty) as [Hman Hauto].
    split_and!; try done.
    + intros _ Hff. cbn. by rewrite Hff.
    + intros _ Hnf. cbn. apply String.eqb_neq in Hnf. by rewrite Hnf.
  - destruct (remote_success env tags (Some px) inst Hmode Hres)
      as (s & h & p & ty & job & Hs & _ & _ & _ & Hty & _ & ->).
    assert (Hname : selected_browser env = s)
      by (unfold selected_browser; by rewrite Hs).
    rewrite Hname. exists ty.
    destruct (proxy_type_policy _ ty Hty) as [Hman Hauto].
    split_and!; try done.
    intros _. split; [done|]. eexists. split; [reflexivity|].
    apply get_set_eq.
Qed.

Lemma browser_proxy_placement_witness :
  exists ty,
    Dict.get proxy_type (selected_browser remote_chrome_env) = Some ty
    /\ (ty = "AUTODETECT" <->
        selected_browser remote_chrome_env = "chrome"
        \/ selected_browser remote_chrome_env = "safari").
Proof.
  destruct (browser_proxy_placement remote_chrome_env None
              {| host := "localhost:8080" |}
              (Instantiate Remote []
                 (remote_kwargs "localhost" "4444"
                    (base_caps (PStr "chrome") []
                     ++ proxy_entry {| host := "localhost:8080" |} "AUTODETECT"))))
    as (ty & Hty & _ & Hauto & _).
  - vm_compute. reflexivity.
  - exists ty. split; [exact Hty | exact Hauto].
Defined.

(** X8.  Augmenting with a proxy twice keeps only the later one: calling
    [_proxy_kwargs] on the arguments an earlier call returned gives what
    it gives on the original arguments, and calling it again with the same
    proxy changes nothing. *)
Theorem proxy_kwargs_last_wins name p1 p2 kwargs kwargs1 :
  _proxy_kwargs name p1 kwargs = Ok kwargs1 ->
  _proxy_kwargs name p2 kwargs1 = _proxy_kwargs name p2 kwargs
  /\ _proxy_kwargs name p1 kwargs1 = Ok kwargs1.
Proof.
  intros H1.
  assert (Hgen : forall p, _proxy_kwargs name p kwargs1 = _proxy_kwargs name p kwargs).
  { intros p. revert H1. rewrite !proxy_kwargs_eq.
    destruct (Dict.get proxy_type name) as [ty|]; [|done]. unfold Dict.has.
    destruct (Dict.get kwargs "desired_capabilities") as [v|] eqn:Edc.
    - rewrite !andb_false_r. destruct v as [| | | | |c]; try done.
      intros [= <-]. rewrite get_set_eq, andb_false_r, !set_set. done.
    - destruct (String.eqb name "firefox"); cbn [andb negb]; intros [= <-].
      + rewrite get_set_ne, Edc by done. cbn [andb negb]. by rewrite set_set.
      + rewrite get_set_eq, set_set. done. }
  split; [apply Hgen|]. by rewrite Hgen.
Qed.

Lemma proxy_kwargs_last_wins_witness :
  _proxy_kwargs "firefox" {| host := "b:2" |}
    [("capabilities", PDict (proxy_entry {| host := "a:1" |} "MANUAL"))]
  = _proxy_kwargs "firefox" {| host := "b:2" |} [].
Proof.
  refine (proj1 (proxy_kwargs_last_wins "firefox" {| host := "a:1" |}
                   {| host := "b:2" |} []
                   [("capabilities", PDict (proxy_entry {| host := "a:1" |} "MANUAL"))]
                   _)).
  vm_compute. reflexivity.
Defined.

(** X9.  How [_proxy_kwargs] ends.  For a browser name that is not in the
    tables it raises [KeyError] with that name, before looking at the
    keyword arguments.  For a supported name it raises [AttributeError]
    when [desired_capabilities] is there and is not a mapping, and it
    returns in every other case. *)
Theorem proxy_kwargs_outcome name p kwargs :
  (Dict.get BROWSERS name = None ->
   _proxy_kwargs name p kwargs = Raise (KeyError name))
  /\ (is_Some (Dict.get BROWSERS name) ->
      forall v, Dict.get kwargs "desired_capabilities" = Some v ->
                (forall c, v <> PDict c) ->
                _proxy_kwargs name p kwargs = Raise (AttributeError "update"))
  /\ ((exists kwargs', _proxy_kwargs name p kwargs = Ok kwargs') <->
      is_Some (Dict.get BROWSERS name)
      /\ forall v, Dict.get kwargs "desired_capabilities" = Some v ->
                   exists c, v = PDict c).
Proof.
  rewrite proxy_kwargs_eq, <- (proxy_type_supported name). unfold Dict.has.
  split_and!.
  - intros Hnone. destruct (Dict.get proxy_type name) eqn:E; [|done].
    assert (Hs : is_Some (Dict.get BROWSERS name))
      by (apply proxy_type_supported; by eexists).
    rewrite Hnone in Hs. by destruct Hs.
  - intros [ty ->] v Hv Hnd. rewrite Hv, andb_false_r.
    destruct v; try done. by destruct (Hnd d).
  - destruct (Dict.get proxy_type name) as [ty|].
    2:{ split; [by intros [? ?] | by intros [[? ?] _]]. }
    destruct (Dict.get kwargs "desired_capabilities") as [v|].
    + rewrite andb_false_r. destruct v as [| | | | |c].
      all: try (split; [by intros [? ?] | intros [_ H]];
                by destruct (H _ eq_refl)).
      split; [intros _ | by eexists].
      split; [by eexists|]. intros v [= <-]. by eexists.
    + split.
      * intros _. split; [by eexists | done].
      * intros _. destruct (String.eqb name "firefox"); by eexists.
Qed.

Lemma use_remote_mono env env' vars :
  (forall k, k ∈ vars -> is_Some (env !! k) -> is_Some (env' !! k)) ->
  _use_remote_browser env vars = true -> _use_remote_browser env' vars = true.
Proof.
  rewrite !use_remote_spec. intros Hsub H k Hk. by apply Hsub, H.
Qed.

(** X10.  Setting more variables never makes a call less remote: if every
    SauceLabs variable set in one environment is set in another, the mode
    of the other is at least as far along local, remote, SauceLabs. *)
Theorem resolve_mode_monotone env env' :
  (forall k, k ∈ SAUCE_ENV_VARS -> is_Some (env !! k) -> is_Some (env' !! k)) ->
  mode_rank (resolve_mode env) <= mode_rank (resolve_mode env').
Proof.
  intros Hsub. unfold resolve_mode.
  destruct (_use_remote_browser env SAUCE_ENV_VARS) eqn:Es.
  - by rewrite (use_remote_mono env env' _ Hsub Es).
  - destruct (_use_remote_browser env REMOTE_ENV_VARS) eqn:Er; simpl; [|lia].
    rewrite (use_remote_mono env env' REMOTE_ENV_VARS); [| |done].
    + destruct (_use_remote_browser env' SAUCE_ENV_VARS); simpl; lia.
    + intros k Hk. by apply Hsub, remote_subset_sauce.
Qed.

Lemma resolve_mode_monotone_witness :
  mode_rank (resolve_mode host_only_env)
  <= mode_rank (resolve_mode remote_chrome_env).
Proof.
  apply (resolve_mode_monotone host_only_env remote_chrome_env).
  intros k Hk%list_elem_of_In. simpl in Hk.
  repeat (destruct Hk as [<- | Hk];
          [vm_compute; let H := fresh in
                       intros [? H]; first [discriminate H | by eexists] |]).
  done.
Defined.

(** X11.  The mode depends on which of the seven variables are set, never
    on their values: two environments that set the same ones resolve to
    the same mode. *)
Theorem resolve_mode_reads_presence_only env env' :
  (forall k, k ∈ SAUCE_ENV_VARS -> (is_Some (env !! k) <-> is_Some (env' !! k))) ->
  resolve_mode env = resolve_mode env'.
Proof.
  intros Hsame.
  assert (Heq : forall vars, (forall k, k ∈ vars -> k ∈ SAUCE_ENV_VARS) ->
                  _use_remote_browser env vars = _use_remote_browser env' vars).
  { intros vars Hsub. apply eq_true_iff_eq. split; apply use_remote_mono.
    - intros k Hk. by apply Hsame, Hsub.
    - intros k Hk. by apply Hsame, Hsub. }
  unfold resolve_mode. rewrite (Heq SAUCE_ENV_VARS) by done.
  by rewrite (Heq REMOTE_ENV_VARS) by apply remote_subset_sauce.
Qed.

Lemma resolve_mode_reads_presence_only_witness :
  resolve_mode remote_chrome_env = resolve_mode remote_empty_host_env.
Proof.
  apply (resolve_mode_reads_presence_only remote_chrome_env remote_empty_host_env).
  intros k Hk%list_elem_of_In. simpl in Hk.
  repeat (destruct Hk as [<- | Hk];
          [vm_compute; split;
           (let H := fresh in
            intros [? H]; first [discriminate H | by eexists]) |]).
  done.
Defined.

Lemma use_remote_agree env env' vars :
  (forall k, k ∈ vars -> env !! k = env' !! k) ->
  _use_remote_browser env vars = _use_remote_browser env' vars.
Proof.
  intros Hag. apply eq_true_iff_eq. split; apply use_remote_mono.
  - intros k Hk. by rewrite (Hag k Hk).
  - intros k Hk. by rewrite (Hag k Hk).
Qed.

Lemma required_envs_agree env env' vars :
  NoDup vars -> (forall k, k ∈ vars -> env !! k = env' !! k) ->
  _required_envs env vars = _required_envs env' vars.
Proof.
  intros Hnd Hag. unfold _required_envs. rewrite !comprehension_NoDup by done.
  replace (map (fun k => (k, env' !! k)) vars)
    with (map (fun k => (k, env !! k)) vars); [done|].
  apply map_ext_in. intros k Hk%list_elem_of_In. by rewrite (Hag k Hk).
Qed.

Lemma remote_class_agree env env' vars tags :
  NoDup vars -> (forall k, k ∈ vars -> k ∈ READ_ENV_VARS) ->
  (forall k, k ∈ READ_ENV_VARS -> env !! k = env' !! k) ->
  _remote_browser_class env vars tags = _remote_browser_class env' vars tags.
Proof.
  intros Hnd Hsub Hag. unfold _remote_browser_class.
  rewrite (required_envs_agree env env' vars) by auto.
  rewrite !optional_envs_eq.
  rewrite (Hag "JOB_NAME"), (Hag "BUILD_NUMBER") by in_list.
  unfold _capabilities_dict.
  rewrite (use_remote_agree env env' SAUCE_ENV_VARS); [done|].
  intros k Hk. apply Hag. unfold READ_ENV_VARS. apply elem_of_app. by left.
Qed.

(** X12.  [browser] reads nine variables and nothing else: the seven of
    [SAUCE_ENV_VARS] and the Jenkins pair.  Two environments that agree on
    them give the same result, return value or error. *)
Theorem browser_reads_nine_variables env env' tags proxy :
  (forall k, k ∈ READ_ENV_VARS -> env !! k = env' !! k) ->
  browser env tags proxy = browser env' tags proxy.
Proof.
  intros Hag. unfold browser.
  rewrite (Hag "SELENIUM_BROWSER") by in_list.
  rewrite (use_remote_agree env env' SAUCE_ENV_VARS).
  2:{ intros k Hk. apply Hag. unfold READ_ENV_VARS. apply elem_of_app. by left. }
  rewrite (use_remote_agree env env' REMOTE_ENV_VARS).
  2:{ intros k Hk. apply Hag. unfold READ_ENV_VARS. apply elem_of_app. left.
      by apply remote_subset_sauce. }
  rewrite (remote_class_agree env env' SAUCE_ENV_VARS tags);
    [ | apply NoDup_SAUCE | | done ].
  2:{ intros k Hk. unfold READ_ENV_VARS. apply elem_of_app. by left. }
  rewrite (remote_class_agree env env' REMOTE_ENV_VARS tags);
    [ done | apply NoDup_REMOTE | | done ].
  intros k Hk. unfold READ_ENV_VARS. apply elem_of_app. left.
  by apply remote_subset_sauce.
Qed.

Lemma browser_reads_nine_variables_witness :
  browser remote_chrome_env (Some ["smoke"]) None
  = browser remote_chrome_home_env (Some ["smoke"]) None.
Proof.
  apply (browser_reads_nine_variables remote_chrome_env remote_chrome_home_env).
  intros k Hk%list_elem_of_In. simpl in Hk.
  repeat (destruct Hk as [<- | Hk]; [by vm_compute|]).
  done.
Defined.

Ltac key_error k :=
  eexists; split; [reflexivity | split; [in_list | assumption]].

(** X13.  How [_capabilities_dict] ends when called on any dictionary.  It
    returns exactly when the dictionary has [SELENIUM_BROWSER], has the
    four SauceLabs values when the environment sets all of
    [SAUCE_ENV_VARS], and has [BUILD_NUMBER] when it has [JOB_NAME].
    Otherwise it raises [KeyError] for a key the dictionary lacks. *)
Theorem capabilities_dict_outcome env envs tags :
  ((exists caps, _capabilities_dict env envs tags = Ok caps) <->
   is_Some (Dict.get envs "SELENIUM_BROWSER")
   /\ (_use_remote_browser env SAUCE_ENV_VARS = true ->
       is_Some (Dict.get envs "SELENIUM_PLATFORM")
       /\ is_Some (Dict.get envs "SELENIUM_VERSION")
       /\ is_Some (Dict.get envs "SAUCE_USER_NAME")
       /\ is_Some (Dict.get envs "SAUCE_API_KEY"))
   /\ (is_Some (Dict.get envs "JOB_NAME") ->
       is_Some (Dict.get envs "BUILD_NUMBER")))
  /\ (forall e, _capabilities_dict env envs tags = Raise e ->
      exists k, e = KeyError k
                /\ k ∈ ["SELENIUM_BROWSER"; "SELENIUM_PLATFORM";
                        "SELENIUM_VERSION"; "SAUCE_USER_NAME";
                        "SAUCE_API_KEY"; "BUILD_NUMBER"]
                /\ Dict.get envs k = None).
Proof.
  unfold _capabilities_dict, getitem, Dict.has.
  destruct (Dict.get envs "SELENIUM_BROWSER") as [b|] eqn:Eb; cbn [bind].
  2:{ split; [split; [by intros [? ?] | by intros [[? ?] _]]|].
      intros e [= <-]. key_error "SELENIUM_BROWSER". }
  destruct (_use_remote_browser env SAUCE_ENV_VARS).
  - destruct (Dict.get envs "SELENIUM_PLATFORM") as [v1|] eqn:E1; cbn [bind].
    2:{ split; [split; [by intros [? ?] | intros (_ & H & _)]|].
        - by destruct (H eq_refl) as ([? ?] & _).
        - intros e [= <-]. key_error "SELENIUM_PLATFORM". }
    destruct (Dict.get envs "SELENIUM_VERSION") as [v2|] eqn:E2; cbn [bind].
    2:{ split; [split; [by intros [? ?] | intros (_ & H & _)]|].
        - by destruct (H eq_refl) as (_ & [? ?] & _).
        - intros e [= <-]. key_error "SELENIUM_VERSION". }
    destruct (Dict.get envs "SAUCE_USER_NAME") as [v3|] eqn:E3; cbn [bind].
    2:{ split; [split; [by intros [? ?] | intros (_ & H & _)]|].
        - by destruct (H eq_refl) as (_ & _ & [? ?] & _).
        - intros e [= <-]. key_error "SAUCE_USER_NAME". }
    destruct (Dict.get envs "SAUCE_API_KEY") as [v4|] eqn:E4; cbn [bind].
    2:{ split; [split; [by intros [? ?] | intros (_ & H & _)]|].
        - by destruct (H eq_refl) as (_ & _ & _ & [? ?]).
        - intros e [= <-]. key_error "SAUCE_API_KEY". }
    destruct (Dict.get envs "JOB_NAME") as [j|] eqn:Ej.
    + destruct (Dict.get envs "BUILD_NUMBER") as [bn|] eqn:En; cbn [bind].
      * split; [|done]. split; [intros _ | by eexists].
        split_and!; by eauto.
      * split; [split; [by intros [? ?] | intros (_ & _ & H)]|].
        -- destruct H as [? ?]; [by eexists | done].
        -- intros e [= <-]. key_error "BUILD_NUMBER".
    + split; [|done]. split; [intros _ | by eexists].
      split_and!; [by eauto | by eauto | by intros [? ?]].
  - cbn [bind]. destruct (Dict.get envs "JOB_NAME") as [j|] eqn:Ej.
    + destruct (Dict.get envs "BUILD_NUMBER") as [bn|] eqn:En; cbn [bind].
      * split; [|done]. split; [intros _ | by eexists].
        split_and!; by eauto.
      * split; [split; [by intros [? ?] | intros (_ & _ & H)]|].
        -- destruct H as [? ?]; [by eexists | done].
        -- intros e [= <-]. key_error "BUILD_NUMBER".
    + split; [|done]. split; [intros _ | by eexists].
      split_and!; [by eauto | done | by intros [? ?]].
Qed.

(** X14.  [_remote_browser_class] depends on being called with the list
    that matches the environment.  When every SauceLabs variable is set
    (browser supported, Jenkins pair consistent), calling it with
    [REMOTE_ENV_VARS] raises [KeyError] for [SELENIUM_PLATFORM]: the
    capability builder tests the environment again and looks for values
    that the shorter list did not collect.  [browser] tests the SauceLabs
    list first and so never makes that call. *)
Theorem remote_class_with_short_list env tags :
  (forall k, k ∈ SAUCE_ENV_VARS -> is_Some (env !! k)) ->
  is_Some (Dict.get BROWSERS (selected_browser env)) ->
  (is_Some (env !! "JOB_NAME") <-> is_Some (env !! "BUILD_NUMBER")) ->
  _remote_browser_class env REMOTE_ENV_VARS tags
  = Raise (KeyError "SELENIUM_PLATFORM")
  /\ forall proxy e, browser env tags proxy <> Raise (KeyError e).
Proof.
  intros Hall Hsup Hpair.
  assert (Hsauce : _use_remote_browser env SAUCE_ENV_VARS = true)
    by by apply use_remote_spec.
  destruct (present_in env _ "SELENIUM_BROWSER" Hall) as [s Hs]; [in_list|].
  destruct (present_in env _ "SELENIUM_HOST" Hall) as [h Hh]; [in_list|].
  destruct (present_in env _ "SELENIUM_PORT" Hall) as [p Hp]; [in_list|].
  split.
  - unfold _remote_browser_class.
    rewrite (required_present env REMOTE_ENV_VARS NoDup_REMOTE) with (s := s);
      [ | in_list | | done ].
    2:{ intros k Hk. by apply Hall, remote_subset_sauce. }
    unfold selected_browser in Hsup. rewrite Hs in Hsup.
    apply has_is_Some in Hsup. rewrite Hsup.
    unfold REMOTE_ENV_VARS. cbn [map bind]. rewrite Hs, Hh, Hp.
    rewrite optional_envs_eq.
    destruct (env !! "JOB_NAME") as [j|], (env !! "BUILD_NUMBER") as [b|];
      cbn [bind].
    + unfold _capabilities_dict. by rewrite Hsauce.
    + destruct (proj1 Hpair) as [? ?]; [by eexists | done].
    + destruct (proj2 Hpair) as [? ?]; [by eexists | done].
    + unfold _capabilities_dict. by rewrite Hsauce.
  - intros proxy e. assert (H := browser_outcome env tags proxy).
    destruct (config_error env); [by rewrite H | by destruct H as [inst ->]].
Qed.

Lemma remote_class_with_short_list_witness :
  _remote_browser_class sauce_firefox_env REMOTE_ENV_VARS None
  = Raise (KeyError "SELENIUM_PLATFORM").
Proof.
  refine (proj1 (remote_class_with_short_list sauce_firefox_env None _ _ _)).
  - exact sauce_firefox_env_complete.
  - vm_compute. by eexists.
  - vm_compute. split; intros [? H]; discriminate H.
Defined.

Lemma browsers_not_remote name cls :
  Dict.get BROWSERS name = Some cls -> cls <> Remote.
Proof.
  unfold BROWSERS. cbn [Dict.get].
  repeat (destruct (String.eqb _ name); [by intros [= <-]|]). done.
Qed.

(** X15.  The constructor of the returned session tells the mode: it is
    [webdriver.Remote] exactly in the remote modes, and in local mode it
    is the class [BROWSERS] gives for the browser name; in every mode the
    constructor gets no positional argument. *)
Theorem session_class_identifies_mode env tags proxy inst :
  browser env tags proxy = Ok inst ->
  browser_args inst = []
  /\ (browser_class inst = Remote <-> resolve_mode env <> Local)
  /\ (resolve_mode env = Local ->
      Dict.get BROWSERS (selected_browser env) = Some (browser_class inst)).
Proof.
  intros Hres.
  destruct (decide (resolve_mode env = Local)) as [Hmode|Hmode].
  - rewrite browser_by_mode, Hmode in Hres. fold (selected_browser env) in Hres.
    destruct (Dict.get BROWSERS (selected_browser env)) as [cls|] eqn:Ecls.
    2:{ unfold _local_browser_class in Hres. by rewrite Ecls in Hres. }
    destruct (local_session env proxy _ cls eq_refl Ecls) as (ty & _ & Heq).
    fold (selected_browser env) in Heq. rewrite Heq in Hres.
    injection Hres as <-. cbn.
    split_and!; [done | | done].
    split; [intros -> | done]. by apply browsers_not_remote in Ecls.
  - destruct (remote_success env tags proxy inst Hmode Hres)
      as (s & h & p & ty & job & _ & _ & _ & _ & _ & _ & ->).
    by split_and!.
Qed.

Lemma session_class_identifies_mode_witness :
  Firefox = Remote <-> resolve_mode job_only_env <> Local.
Proof.
  refine (proj1 (proj2 (session_class_identifies_mode job_only_env None None
                          (Instantiate Firefox [] []) _))).
  vm_compute. reflexivity.
Defined.

(** X16.  [_optional_envs] returns exactly when [JOB_NAME] and
    [BUILD_NUMBER] are both set or both unset, and what it returns holds
    the two variables with their values when they are set and nothing
    else; it is empty when they are unset. *)
Theorem optional_envs_outcome env :
  ((exists d, _optional_envs env = Ok d) <->
   (is_Some (env !! "JOB_NAME") <-> is_Some (env !! "BUILD_NUMBER")))
  /\ (forall d, _optional_envs env = Ok d ->
      Dict.keys d = filter (fun k => is_Some (env !! k)) OPTIONAL_ENV_VARS
      /\ forall k v, Dict.get d k = Some v <->
                     k ∈ OPTIONAL_ENV_VARS /\ is_Some (env !! k) /\ v = env !! k).
Proof.
  rewrite optional_envs_eq. unfold OPTIONAL_ENV_VARS.
  rewrite !filter_cons, filter_nil.
  destruct (env !! "JOB_NAME") as [j|] eqn:Ej,
           (env !! "BUILD_NUMBER") as [b|] eqn:Eb; cbn.
  - split; [split; [done | by eexists]|]. intros d [= <-]. split; [done|].
    intros k v. cbn [Dict.get].
    destruct (String.eqb_spec "JOB_NAME" k) as [<-|Hj].
    { rewrite Ej. split; [intros [= <-]; split_and!; [in_list | by eexists | done]
                         | by intros (_ & _ & ->)]. }
    destruct (String.eqb_spec "BUILD_NUMBER" k) as [<-|Hb].
    { rewrite Eb. split; [intros [= <-]; split_and!; [in_list | by eexists | done]
                         | by intros (_ & _ & ->)]. }
    split; [done|]. intros (Hk%list_elem_of_In & _). simpl in Hk. intuition.
  - split; [|done]. split; [by intros [? ?] | intros [H _]].
    destruct H as [? ?]; [by eexists | done].
  - split; [|done]. split; [by intros [? ?] | intros [_ H]].
    destruct H as [? ?]; [by eexists | done].
  - split; [split; [intros _; split; by intros [? ?] | by eexists]|].
    intros d [= <-]. split; [done|]. intros k v. cbn [Dict.get].
    split; [done|]. intros (Hk%list_elem_of_In & [x Hx] & _). simpl in Hk.
    destruct Hk as [<- | [<- | []]]; congruence.
Qed.

Lemma keys_app {V} (d e : Dict.t V) : Dict.keys (d ++ e) = Dict.keys d ++ Dict.keys e.
Proof. unfold Dict.keys. apply map_app. Qed.

Lemma keys_sauce_block env :
  Dict.keys (sauce_block env)
  = if _use_remote_browser env SAUCE_ENV_VARS then sauce_keys else [].
Proof.
  unfold sauce_block. by destruct (_use_remote_browser env SAUCE_ENV_VARS).
Qed.

Lemma keys_jenkins env job :
  jenkins env = Ok job ->
  Dict.keys job = if bool_decide (is_Some (env !! "JOB_NAME")) then job_keys else [].
Proof.
  unfold jenkins.
  destruct (env !! "JOB_NAME"), (env !! "BUILD_NUMBER"); intros [= <-].
  - by rewrite bool_decide_eq_true_2 by by eexists.
  - by rewrite bool_decide_eq_false_2 by by intros [? ?].
Qed.

(** X17.  The capabilities of a session returned in a remote mode have
    their keys in a fixed order: the eight base keys, then the four
    SauceLabs keys in SauceLabs mode, then [build] and [name] when the
    Jenkins variables are set, then [proxy] when a proxy was passed; no
    key occurs twice. *)
Theorem remote_capabilities_key_order env tags proxy inst :
  resolve_mode env <> Local ->
  browser env tags proxy = Ok inst ->
  exists caps,
    Dict.get (browser_kwargs inst) "desired_capabilities" = Some (PDict caps)
    /\ Dict.keys caps
       = base_keys
         ++ (if decide (resolve_mode env = ManagedCloud) then sauce_keys else [])
         ++ (if bool_decide (is_Some (env !! "JOB_NAME")) then job_keys else [])
         ++ (match proxy with Some _ => ["proxy"] | None => [] end)
    /\ NoDup (Dict.keys caps).
Proof.
  intros Hmode Hres.
  destruct (remote_success env tags proxy inst Hmode Hres)
    as (s & h & p & ty & job & _ & _ & _ & _ & _ & Hjob & ->).
  eexists. split; [reflexivity|].
  assert (Hkeys : Dict.keys (base_caps (PStr s) (tags_or_empty tags)
                             ++ sauce_block env ++ job)
                  = base_keys
                    ++ (if decide (resolve_mode env = ManagedCloud)
                        then sauce_keys else [])
                    ++ (if bool_decide (is_Some (env !! "JOB_NAME"))
                        then job_keys else [])).
  { rewrite !keys_app, keys_sauce_block, (keys_jenkins env job Hjob).
    unfold resolve_mode.
    destruct (_use_remote_browser env SAUCE_ENV_VARS); [done|].
    by destruct (_use_remote_browser env REMOTE_ENV_VARS). }
  assert (Hkp : Dict.keys
                  (with_proxy proxy ty
                     (base_caps (PStr s) (tags_or_empty tags)
                      ++ sauce_block env ++ job))
                = (base_keys
                   ++ (if decide (resolve_mode env = ManagedCloud)
                       then sauce_keys else [])
                   ++ (if bool_decide (is_Some (env !! "JOB_NAME"))
                       then job_keys else []))
                  ++ match proxy with Some _ => ["proxy"] | None => [] end).
  { destruct proxy as [px|]; cbn [with_proxy].
    - rewrite keys_set, Hkeys.
      replace (Dict.has _ "proxy") with false; [done|].
      symmetry. apply not_true_is_false. rewrite has_keys, Hkeys.
      destruct (decide _), (bool_decide _); not_in_list.
    - by rewrite Hkeys, app_nil_r. }
  split.
  - rewrite Hkp. by rewrite <- !app_assoc.
  - rewrite Hkp. apply (bool_decide_unpack _).
    by destruct (decide _), (bool_decide _), proxy; vm_compute.
Qed.

Lemma remote_capabilities_key_order_witness :
  exists caps,
    Dict.get
      (remote_kwargs "localhost" "4444" (base_caps (PStr "chrome") []))
      "desired_capabilities" = Some (PDict caps)
    /\ NoDup (Dict.keys caps).
Proof.
  destruct (remote_capabilities_key_order remote_chrome_env None None
              (Instantiate Remote []
                 (remote_kwargs "localhost" "4444" (base_caps (PStr "chrome") [])))
              remote_chrome_env_remote)
    as (caps & Hdc & _ & Hnd).
  - vm_compute. reflexivity.
  - exists caps. split; [exact Hdc | exact Hnd].
Defined.
